(** * snippet_uiautomator.uiobject2: selector handles and action builders

    A shallow embedding of [src/snippet_uiautomator/uiobject2.py].

    The Python module is a client-side object model: every method builds
    arguments locally, possibly rejects them with an exception, and otherwise
    performs remote procedure calls through a snippet client.  The embedding
    therefore threads a [World] (the object store, the log of the RPCs issued
    so far and the warnings emitted) through a small state-and-exception
    monad [Py]. *)

From Stdlib Require Import ZArith.
From stdpp Require Import base option gmap strings list fin_maps pretty.

Local Open Scope string_scope.
Local Open Scope Z_scope.
Local Open Scope list_scope.

(** ** Python values crossing the RPC boundary *)

(** Object references: addresses in the store of the [World]. *)
Definition loc := positive.

(** The Python values the module handles: [None], booleans, integers,
    strings, dictionaries with string keys in insertion order (keyword
    arguments and serialized selectors), and references to [UiObject2]
    instances (the [target] argument of a scroll). *)
#[warnings="-register-all"]
Inductive pyval : Type :=
| PNone
| PBool (b : bool)
| PInt (z : Z)
| PStr (s : string)
| PDict (items : list (string * pyval))
| PHandle (ref : loc).

(** [**kwargs]: an insertion-ordered mapping from names to values. *)
Abbreviation kwargs := (list (string * pyval)).

(** Python truth-value testing, as used by [if v:] and [not v]. *)
Definition truthy (v : pyval) : bool :=
  match v with
  | PNone => false
  | PBool b => b
  | PInt z => negb (Z.eqb z 0)
  | PStr s => negb (Nat.eqb (String.length s) 0)
  | PDict items => negb (Nat.eqb (length items) 0)
  | PHandle _ => true
  end.

(** [v is None]. *)
Definition is_none (v : pyval) : bool :=
  match v with
  | PNone => true
  | _ => false
  end.

(** The truth value of a keyword dictionary: it has at least one item. *)
Definition nonempty (kw : kwargs) : bool :=
  match kw with
  | [] => false
  | _ :: _ => true
  end.

(** [type(v).__name__]. *)
Definition type_name (v : pyval) : string :=
  match v with
  | PNone => "NoneType"
  | PBool _ => "bool"
  | PInt _ => "int"
  | PStr _ => "str"
  | PDict _ => "dict"
  | PHandle _ => "UiObject2"
  end.

(** [o is not None] for an optional argument. *)
Definition given {A} (o : option A) : bool :=
  match o with
  | Some _ => true
  | None => false
  end.

(** An [Optional[int]] argument as the value handed to the RPC layer. *)
Definition of_optional (o : option Z) : pyval :=
  match o with
  | Some z => PInt z
  | None => PNone
  end.

(** Keyword lookup and removal, used when a dictionary is splatted into a
    call whose signature names some of the keys. *)
Fixpoint kw_get (k : string) (kw : kwargs) : option pyval :=
  match kw with
  | [] => None
  | (k', v) :: rest => if String.eqb k' k then Some v else kw_get k rest
  end.

Fixpoint kw_remove (k : string) (kw : kwargs) : kwargs :=
  match kw with
  | [] => []
  | (k', v) :: rest =>
      if String.eqb k' k then kw_remove k rest else (k', v) :: kw_remove k rest
  end.

(** ** Exceptions *)

(** The device a snippet client is attached to ([ui._device]); only its
    identity matters here. *)
Definition Device := string.

(** The exception classes that can leave this module.  [ApiError] and
    [UiObjectSearchError] come from [snippet_uiautomator.errors]; they are
    taken as two unrelated classes (an [except UiObjectSearchError] clause
    does not catch an [ApiError]).  [AttributeError] is the interpreter's.
    [RpcFailure] stands for whatever the transport raises.
    [DanglingReference] marks a read of an address absent from the store,
    which no Python program can perform. *)
Inductive exn_class : Type :=
| ApiError
| UiObjectSearchError
| AttributeError
| RpcFailure
| DanglingReference.

Global Instance exn_class_eq_dec : EqDecision exn_class.
Proof. solve_decision. Defined.

(** An exception instance: class, message, the optional device argument, and
    the [__cause__] set by [raise ... from e]. *)
#[warnings="-register-all"]
Inductive exn : Type :=
  Exn { exn_type : exn_class;
        exn_msg : string;
        exn_device : option Device;
        __cause__ : option exn }.

(** ** The remote automation service *)

(** One remote call: [ui.method(args...)]. *)
Record rpc_call : Type :=
  Rpc { rpc_method : string; rpc_args : list pyval }.

Inductive rpc_reply : Type :=
| Returns (v : pyval)
| Throws (e : exn).

(** [snippet_client_v2.SnippetClientV2], seen from this module: the device it
    belongs to and the answer of the remote side to a call, which may depend
    on the calls made before it. *)
Record SnippetClientV2 : Type :=
  { ui_device : Device;
    respond : list rpc_call -> rpc_call -> rpc_reply }.

(** ** Selectors *)

(** Modelled from the spec: [byselector.BySelector] is not part of the
    sources at hand.  A selector is an ordered sequence of steps; the initial
    step holds the criteria that find the root element, every later step is a
    relation tag with its criteria. *)
Record BySelector : Type :=
  { by_criteria : kwargs;
    steps : list (string * kwargs) }.

(** ** What the module imports from [utils], [constants] and [byselector] *)

(** [utils.covert_to_millisecond] with the time-unit type it accepts, the
    constants of [constants], the serializer [BySelector.to_dict] and the
    interpreter's string formatting of a value inside an f-string. *)
Class Externals : Type :=
  { TimeUnit : Type;
    covert_to_millisecond : TimeUnit -> Z;
    DEFAULT_SNIPPET_RPC_TIMEOUT : TimeUnit;
    DEFAULT_UI_WAIT_TIME : TimeUnit;
    ERROR_MSG_FOR_LONG_TIMEOUT : string;
    wire_format : BySelector -> pyval;
    format_value : pyval -> string }.

(** ** Instance attributes of [UiObject2] *)

Record UiObject2 : Type :=
  { _ui : SnippetClientV2;
    _device : Device;
    _selector : loc;
    _raise_error : bool }.

Definition set_raise_error (b : bool) (o : UiObject2) : UiObject2 :=
  {| _ui := _ui o; _device := _device o; _selector := _selector o;
     _raise_error := b |}.

(** ** The world and the monad of Python computations *)

Record World : Type :=
  { handles : gmap loc UiObject2;
    selectors : gmap loc BySelector;
    rpc_log : list rpc_call;
    warnings_log : list string }.

Definition with_handles (f : gmap loc UiObject2 -> gmap loc UiObject2)
    (w : World) : World :=
  {| handles := f (handles w); selectors := selectors w;
     rpc_log := rpc_log w; warnings_log := warnings_log w |}.

Definition with_selectors (f : gmap loc BySelector -> gmap loc BySelector)
    (w : World) : World :=
  {| handles := handles w; selectors := f (selectors w);
     rpc_log := rpc_log w; warnings_log := warnings_log w |}.

Definition with_rpc_log (f : list rpc_call -> list rpc_call)
    (w : World) : World :=
  {| handles := handles w; selectors := selectors w;
     rpc_log := f (rpc_log w); warnings_log := warnings_log w |}.

Definition with_warnings_log (f : list string -> list string)
    (w : World) : World :=
  {| handles := handles w; selectors := selectors w;
     rpc_log := rpc_log w; warnings_log := f (warnings_log w) |}.

Inductive outcome (A : Type) : Type :=
| Returned (a : A)
| Raised (e : exn).
Arguments Returned {A} a.
Arguments Raised {A} e.

Definition Py (A : Type) : Type := World -> outcome A * World.

Definition ret {A} (a : A) : Py A := fun w => (Returned a, w).

Definition bind {A B} (m : Py A) (k : A -> Py B) : Py B :=
  fun w =>
    match m w with
    | (Returned a, w') => k a w'
    | (Raised e, w') => (Raised e, w')
    end.

Definition raise {A} (e : exn) : Py A := fun w => (Raised e, w).

Notation "x <- m ;; k" := (bind m (fun x => k))
  (at level 100, m at next level, right associativity).
Notation "m ;;; k" := (bind m (fun _ => k))
  (at level 100, right associativity).

(** [try: body  except cls as e: handler e]. *)
Definition try_except {A} (body : Py A) (cls : exn_class)
    (handler : exn -> Py A) : Py A :=
  fun w =>
    match body w with
    | (Returned a, w') => (Returned a, w')
    | (Raised e, w') =>
        if decide (exn_type e = cls) then handler e w' else (Raised e, w')
    end.

(** [try: body  finally: cleanup]: the cleanup runs on every exit path; an
    exception of the cleanup replaces the outcome of the body. *)
Definition try_finally {A} (body : Py A) (cleanup : Py unit) : Py A :=
  fun w =>
    let '(r, w1) := body w in
    match cleanup w1 with
    | (Returned _, w2) => (r, w2)
    | (Raised e, w2) => (Raised e, w2)
    end.

Definition dangling : exn :=
  Exn DanglingReference "read of an unallocated address" None None.

(** The store of [BySelector] objects. *)
Definition alloc_selector (s : BySelector) : Py loc :=
  fun w =>
    let l := fresh (dom (selectors w)) in
    (Returned l, with_selectors <[l := s]> w).

Definition read_selector (l : loc) : Py BySelector :=
  fun w =>
    match selectors w !! l with
    | Some s => (Returned s, w)
    | None => (Raised dangling, w)
    end.

Definition write_selector (l : loc) (s : BySelector) : Py unit :=
  fun w =>
    match selectors w !! l with
    | Some _ => (Returned tt, with_selectors <[l := s]> w)
    | None => (Raised dangling, w)
    end.

(** The store of [UiObject2] objects. *)
Definition alloc_handle (o : UiObject2) : Py loc :=
  fun w =>
    let l := fresh (dom (handles w)) in
    (Returned l, with_handles <[l := o]> w).

Definition read_handle (l : loc) : Py UiObject2 :=
  fun w =>
    match handles w !! l with
    | Some o => (Returned o, w)
    | None => (Raised dangling, w)
    end.

Definition write_handle (l : loc) (o : UiObject2) : Py unit :=
  fun w =>
    match handles w !! l with
    | Some _ => (Returned tt, with_handles <[l := o]> w)
    | None => (Raised dangling, w)
    end.

(** [ui.method(args...)]: the call is logged, then the remote side answers
    (or the transport raises). *)
Definition rpc (ui : SnippetClientV2) (method : string) (args : list pyval)
    : Py pyval :=
  fun w =>
    let c := Rpc method args in
    let w' := with_rpc_log (fun log => log ++ [c]) w in
    match respond ui (rpc_log w) c with
    | Returns v => (Returned v, w')
    | Throws e => (Raised e, w')
    end.

(** [warnings.warn(msg, DeprecationWarning, ...)]. *)
Definition warnings_warn (msg : string) : Py unit :=
  fun w => (Returned tt, with_warnings_log (fun l => l ++ [msg]) w).

(** [obj._selector] for an arbitrary value [obj]: only [UiObject2] instances
    have the attribute. *)
Definition getattr_selector (obj : pyval) : Py loc :=
  match obj with
  | PHandle l => o <- read_handle l ;; ret (_selector o)
  | _ =>
      raise (Exn AttributeError
               ("'" +:+ type_name obj +:+ "' object has no attribute '_selector'")
               None None)
  end.

(** ** [byselector.BySelector] *)

Module byselector.

(** Modelled from the spec: [BySelector] with keyword criteria, the
    constructor missing from the sources.  The criteria become the initial
    step; no navigation step has been taken yet. *)
Definition new (criteria : kwargs) : BySelector :=
  {| by_criteria := criteria; steps := [] |}.

(** Modelled from the spec: the chain of [BySelector.append], missing from
    the sources: the same chain with the step [(tag, criteria)] added at
    the end. *)
Definition extended (s : BySelector) (tag : string) (criteria : kwargs)
    : BySelector :=
  {| by_criteria := by_criteria s; steps := steps s ++ [(tag, criteria)] |}.

(** Modelled from the spec: [BySelector.copy], missing from the sources: an
    independent snapshot, that is a new object with the same chain. *)
Definition copy (self : loc) : Py loc :=
  s <- read_selector self ;;
  alloc_selector s.

(** Modelled from the spec: [BySelector.append], missing from the sources.
    Its caller discards the result and goes on with the receiver, so the
    step is added to the receiver itself, which is also the result. *)
Definition append (self : loc) (tag : string) (criteria : kwargs) : Py loc :=
  s <- read_selector self ;;
  (write_selector self (extended s tag criteria) ;;;
   ret self).

Section serialization.
Context `{Externals}.

(** [BySelector.to_dict]: the wire format of the chain held by the
    object at the time of the call. *)
Definition to_dict (self : loc) : Py pyval :=
  s <- read_selector self ;;
  ret (wire_format s).

(** [byselector.BySelector(criteria).to_dict()] on a temporary that no
    other object ever refers to. *)
Definition criteria_to_dict (criteria : kwargs) : pyval :=
  wire_format (new criteria).
End serialization.

End byselector.

(** ** [_Click] *)

Module _Click.

Record t : Type :=
  { _ui : SnippetClientV2;
    _selector : loc;
    _rpc_timeout_ms : Z }.

Section methods.
Context `{Externals}.

Definition __init__ (ui : SnippetClientV2) (selector : loc) : t :=
  {| _ui := ui;
     _selector := selector;
     _rpc_timeout_ms := covert_to_millisecond DEFAULT_SNIPPET_RPC_TIMEOUT |}.

Definition __call__ (self : t) (duration timeout : option TimeUnit)
    (x y : option Z) : Py pyval :=
  duration <-
    (match timeout with
     | Some _ =>
         warnings_warn
           "The 'timeout' argument is deprecated, use 'duration' instead." ;;;
         ret timeout
     | None => ret duration
     end) ;;
  let duration_ms :=
    match duration with
    | None => PNone
    | Some d => PInt (covert_to_millisecond d)
    end in
  if given x && given y then
    sel <- byselector.to_dict (_selector self) ;;
    rpc (_ui self) "clickObjPoint"
      [sel; of_optional x; of_optional y; duration_ms]
  else if negb (given x) && negb (given y) then
    sel <- byselector.to_dict (_selector self) ;;
    rpc (_ui self) "clickObj" [sel; duration_ms]
  else
    raise (Exn ApiError "Must provide both x and y to click on point"
             None None).

Definition wait (self : t) (timeout : TimeUnit) : Py pyval :=
  let timeout_ms := covert_to_millisecond timeout in
  if _rpc_timeout_ms self <=? timeout_ms
  then raise (Exn ApiError ERROR_MSG_FOR_LONG_TIMEOUT None None)
  else
    sel <- byselector.to_dict (_selector self) ;;
    rpc (_ui self) "clickObjAndWait" [sel; PInt timeout_ms].
End methods.

End _Click.

(** ** [_Drag] *)

Module _Drag.

Record t : Type :=
  { _ui : SnippetClientV2;
    _device : Device;
    _selector : loc }.

Definition __init__ (ui : SnippetClientV2) (selector : loc) : t :=
  {| _ui := ui; _device := ui_device ui; _selector := selector |}.

Section methods.
Context `{Externals}.

Definition to (self : t) (x y speed : option Z) (kw : kwargs) : Py pyval :=
  if negb (given x) && negb (given y) && nonempty kw then
    sel <- byselector.to_dict (_selector self) ;;
    rpc (_ui self) "dragObjToObj"
      [sel; byselector.criteria_to_dict kw; of_optional speed]
  else if given x && given y && negb (nonempty kw) then
    sel <- byselector.to_dict (_selector self) ;;
    rpc (_ui self) "dragObj"
      [sel; of_optional x; of_optional y; of_optional speed]
  else
    raise (Exn ApiError
             "Drag to object and drag to coordinates cannot be mixed"
             (Some (_device self)) None).

Definition __call__ (self : t) (x y speed : option Z) (kw : kwargs)
    : Py pyval :=
  to self x y speed kw.
End methods.

End _Drag.

(** ** [_Gesture] *)

Module _Gesture.

Module _To.

Record t : Type :=
  { _ui : SnippetClientV2;
    _device : Device;
    _selector : loc;
    _action : string;
    _direction : string;
    _margin : option Z;
    _percent : option Z }.

Definition __init__ (ui : SnippetClientV2) (selector : loc)
    (action direction : string) (margin percent : option Z) : t :=
  {| _ui := ui; _device := ui_device ui; _selector := selector;
     _action := action; _direction := direction;
     _margin := margin; _percent := percent |}.

Section methods.
Context `{Externals}.

Definition __call__ (self : t) (percent : Z) (speed : option Z)
    : Py pyval :=
  if String.eqb (_action self) "fling" then
    if negb (percent =? 0) then
      raise (Exn ApiError
               "fling gesture does not support changing the percent"
               (Some (_device self)) None)
    else
      sel <- byselector.to_dict (_selector self) ;;
      rpc (_ui self) "fling"
        [sel; PStr (_direction self); of_optional speed;
         of_optional (_margin self); of_optional (_percent self)]
  else if String.eqb (_action self) "swipe" then
    if negb ((0 <=? percent) && (percent <=? 100)) then
      raise (Exn ApiError
               "swipe gesture requires percent to be between 0 and 100"
               (Some (_device self)) None)
    else
      sel <- byselector.to_dict (_selector self) ;;
      rpc (_ui self) "swipeObj"
        [sel; PStr (_direction self); PInt percent; of_optional speed;
         of_optional (_margin self); of_optional (_percent self)]
  else
    raise (Exn ApiError ("Unknown gesture action: " +:+ _action self)
             (Some (_device self)) None).
End methods.

End _To.

Record t : Type :=
  { _ui : SnippetClientV2;
    _device : Device;
    _selector : loc;
    _action : string;
    _margin : option Z;
    _percent : option Z }.

Definition __init__ (ui : SnippetClientV2) (selector : loc) (action : string)
    : t :=
  {| _ui := ui; _device := ui_device ui; _selector := selector;
     _action := action; _margin := None; _percent := None |}.

(** The configurator: the builder with its margins set (the Python method
    updates the builder and returns it). *)
Definition __call__ (self : t) (margin percent : option Z) : Py t :=
  if given margin && given percent then
    raise (Exn ApiError
             "Pixel-based and percentage-based margin cannot be mixed"
             (Some (_device self)) None)
  else
    ret {| _ui := _ui self; _device := _device self;
           _selector := _selector self; _action := _action self;
           _margin := margin; _percent := percent |}.

Definition towards (self : t) (direction : string) : _To.t :=
  _To.__init__ (_ui self) (_selector self) (_action self) direction
    (_margin self) (_percent self).

Definition down (self : t) : _To.t := towards self "DOWN".
Definition left (self : t) : _To.t := towards self "LEFT".
Definition right (self : t) : _To.t := towards self "RIGHT".
Definition up (self : t) : _To.t := towards self "UP".

End _Gesture.

(** ** [_Pinch] *)

Module _Pinch.

Record t : Type :=
  { _ui : SnippetClientV2;
    _selector : loc }.

Definition __init__ (ui : SnippetClientV2) (selector : loc) : t :=
  {| _ui := ui; _selector := selector |}.

Section methods.
Context `{Externals}.

Definition close (self : t) (percent : Z) (speed : option Z) : Py pyval :=
  selector_dict <- byselector.to_dict (_selector self) ;;
  rpc (_ui self) "pinchClose" [selector_dict; PInt percent; of_optional speed].

Definition open (self : t) (percent : Z) (speed : option Z) : Py pyval :=
  selector_dict <- byselector.to_dict (_selector self) ;;
  rpc (_ui self) "pinchOpen" [selector_dict; PInt percent; of_optional speed].
End methods.

End _Pinch.

(** ** [_Scroll] *)

Module _Scroll.

Module _To.

Record t : Type :=
  { _ui : SnippetClientV2;
    _device : Device;
    _selector : loc;
    _direction : string;
    _margin : option Z;
    _percent : option Z }.

Definition __init__ (ui : SnippetClientV2) (selector : loc)
    (direction : string) (margin percent : option Z) : t :=
  {| _ui := ui; _device := ui_device ui; _selector := selector;
     _direction := direction; _margin := margin; _percent := percent |}.

Section methods.
Context `{Externals}.

Definition mixed_error (self : t) : exn :=
  Exn ApiError
    "Scroll by percentage and scroll by condition cannot be mixed"
    (Some (_device self)) None.

(** [percent], [speed] and [target] are kept as plain values ([PNone]
    when left out): the method only tests them against [None] and
    passes them on, and [click] below can bind them from a splatted
    dictionary. *)
Definition __call__ (self : t) (percent speed target : pyval)
    (kw : kwargs) : Py pyval :=
  if negb (is_none percent) && is_none target && negb (nonempty kw) then
    sel <- byselector.to_dict (_selector self) ;;
    rpc (_ui self) "scroll"
      [sel; PStr (_direction self); percent; speed;
       of_optional (_margin self); of_optional (_percent self)]
  else if is_none percent && is_none speed then
    if is_none target && nonempty kw then
      sel <- byselector.to_dict (_selector self) ;;
      rpc (_ui self) "scrollUntil"
        [sel; PDict kw; PStr (_direction self);
         of_optional (_margin self); of_optional (_percent self)]
    else if is_none target && negb (nonempty kw) then
      sel <- byselector.to_dict (_selector self) ;;
      rpc (_ui self) "scrollUntilFinished"
        [sel; PStr (_direction self);
         of_optional (_margin self); of_optional (_percent self)]
    else if negb (is_none target) && negb (nonempty kw) then
      sel <- byselector.to_dict (_selector self) ;;
      target_selector <- getattr_selector target ;;
      target_dict <- byselector.to_dict target_selector ;;
      rpc (_ui self) "scrollUntil"
        [sel; target_dict; PStr (_direction self);
         of_optional (_margin self); of_optional (_percent self)]
    else raise (mixed_error self)
  else raise (mixed_error self).

(** The call of [self] with the dictionary [kw] splatted: the keys
    [percent], [speed] and [target] of the dictionary bind the parameters
    of those names, the other items are the keyword criteria of the call.
    (The dictionary is the keyword dictionary of [click], so it has no key
    [self].) *)
Definition call_splat (self : t) (kw : kwargs) : Py pyval :=
  __call__ self
    (default PNone (kw_get "percent" kw))
    (default PNone (kw_get "speed" kw))
    (default PNone (kw_get "target" kw))
    (kw_remove "target" (kw_remove "speed" (kw_remove "percent" kw))).

Definition click (self : t) (kw : kwargs) : Py pyval :=
  if negb (nonempty kw) then
    raise (Exn ApiError "Target to scroll to is not defined"
             (Some (_device self)) None)
  else
    scrolled <- call_splat self kw ;;
    if truthy scrolled then rpc (_ui self) "clickObj" [PDict kw]
    else ret (PBool false).
End methods.

End _To.

Record t : Type :=
  { _ui : SnippetClientV2;
    _device : Device;
    _selector : loc;
    _margin : option Z;
    _percent : option Z }.

Definition __init__ (ui : SnippetClientV2) (selector : loc) : t :=
  {| _ui := ui; _device := ui_device ui; _selector := selector;
     _margin := None; _percent := None |}.

(** The configurator: the builder with its margins set (the Python method
    updates the builder and returns it). *)
Definition __call__ (self : t) (margin percent : option Z) : Py t :=
  if given margin && given percent then
    raise (Exn ApiError
             "Pixel-based and percentage-based margin cannot be mixed"
             (Some (_device self)) None)
  else
    ret {| _ui := _ui self; _device := _device self;
           _selector := _selector self;
           _margin := margin; _percent := percent |}.

Definition towards (self : t) (direction : string) : _To.t :=
  _To.__init__ (_ui self) (_selector self) direction
    (_margin self) (_percent self).

Definition down (self : t) : _To.t := towards self "DOWN".
Definition left (self : t) : _To.t := towards self "LEFT".
Definition right (self : t) : _To.t := towards self "RIGHT".
Definition up (self : t) : _To.t := towards self "UP".

End _Scroll.

(** ** [_Wait] *)

Module _Wait.

Record t : Type :=
  { _ui : SnippetClientV2;
    _device : Device;
    _selector : loc;
    _raise_error : bool;
    _rpc_timeout_ms : Z }.

Section methods.
Context `{Externals}.

Definition __init__ (ui : SnippetClientV2) (selector : loc)
    (raise_error : bool) : t :=
  {| _ui := ui; _device := ui_device ui; _selector := selector;
     _raise_error := raise_error;
     _rpc_timeout_ms := covert_to_millisecond DEFAULT_SNIPPET_RPC_TIMEOUT |}.

Definition click (self : t) (timeout : TimeUnit) : Py pyval :=
  let timeout_ms := covert_to_millisecond timeout in
  if _rpc_timeout_ms self <=? timeout_ms
  then raise (Exn ApiError ERROR_MSG_FOR_LONG_TIMEOUT None None)
  else
    sel <- byselector.to_dict (_selector self) ;;
    found <- rpc (_ui self) "waitForExists" [sel; PInt timeout_ms] ;;
    if truthy found then
      sel' <- byselector.to_dict (_selector self) ;;
      rpc (_ui self) "clickObj" [sel']
    else ret (PBool false).

Definition exists_ (self : t) (timeout : TimeUnit) (raise_error : bool)
    : Py pyval :=
  let timeout_ms := covert_to_millisecond timeout in
  if _rpc_timeout_ms self <=? timeout_ms
  then raise (Exn ApiError ERROR_MSG_FOR_LONG_TIMEOUT None None)
  else
    sel <- byselector.to_dict (_selector self) ;;
    is_exists <- rpc (_ui self) "waitForExists" [sel; PInt timeout_ms] ;;
    if truthy is_exists then ret (PBool true)
    else if _raise_error self || raise_error then
      sel' <- byselector.to_dict (_selector self) ;;
      raise (Exn UiObjectSearchError
               ("Not found Selector" +:+ format_value sel' +:+ " over "
                +:+ format_value (PInt timeout_ms) +:+ " ms")
               (Some (_device self)) None)
    else ret (PBool false).

Definition assert_exists (self : t) (error_msg : string)
    (timeout : TimeUnit) : Py unit :=
  try_except
    (exists_ self timeout true ;;; ret tt)
    UiObjectSearchError
    (fun e =>
       raise (Exn UiObjectSearchError error_msg (Some (_device self))
                (Some e))).

Definition gone (self : t) (timeout : TimeUnit) (raise_error : bool)
    : Py pyval :=
  let timeout_ms := covert_to_millisecond timeout in
  if _rpc_timeout_ms self <=? timeout_ms
  then raise (Exn ApiError ERROR_MSG_FOR_LONG_TIMEOUT None None)
  else
    sel <- byselector.to_dict (_selector self) ;;
    is_gone <- rpc (_ui self) "waitUntilGone" [sel; PInt timeout_ms] ;;
    if truthy is_gone then ret (PBool true)
    else if _raise_error self || raise_error then
      sel' <- byselector.to_dict (_selector self) ;;
      raise (Exn UiObjectSearchError
               ("Still found Selector" +:+ format_value sel' +:+ " over"
                +:+ " " +:+ format_value (PInt timeout_ms) +:+ " ms")
               (Some (_device self)) None)
    else ret (PBool false).

Definition assert_gone (self : t) (error_msg : string)
    (timeout : TimeUnit) : Py unit :=
  try_except
    (gone self timeout true ;;; ret tt)
    UiObjectSearchError
    (fun e =>
       raise (Exn UiObjectSearchError error_msg (Some (_device self))
                (Some e))).
End methods.

End _Wait.

(** ** [UiObject2] *)

Module UiObject2.

(** The constructor: a new object in the store. *)
Definition __init__ (ui : SnippetClientV2) (selector : loc)
    (raise_error : bool) : Py loc :=
  alloc_handle {| _ui := ui; _device := ui_device ui;
                  _selector := selector; _raise_error := raise_error |}.

(** [self._raise_error = b]. *)
Definition setattr_raise_error (self : loc) (b : bool) : Py unit :=
  o <- read_handle self ;;
  write_handle self (set_raise_error b o).

Definition _create_instance (self : loc) (tag : string) (kw : kwargs)
    : Py loc :=
  o <- read_handle self ;;
  selector <- byselector.copy (_selector o) ;;
  (byselector.append selector tag kw ;;;
   __init__ (_ui o) selector (_raise_error o)).

Definition parent (self : loc) : Py loc := _create_instance self "parent" [].
Definition ancestor (self : loc) (kw : kwargs) : Py loc :=
  _create_instance self "ancestor" kw.
Definition child (self : loc) (kw : kwargs) : Py loc :=
  _create_instance self "child" kw.
Definition sibling (self : loc) (kw : kwargs) : Py loc :=
  _create_instance self "sibling" kw.
Definition bottom (self : loc) (kw : kwargs) : Py loc :=
  _create_instance self "bottom" kw.
Definition left (self : loc) (kw : kwargs) : Py loc :=
  _create_instance self "left" kw.
Definition right (self : loc) (kw : kwargs) : Py loc :=
  _create_instance self "right" kw.
Definition top (self : loc) (kw : kwargs) : Py loc :=
  _create_instance self "top" kw.

Section methods.
Context `{Externals}.

Definition click (self : loc) : Py _Click.t :=
  o <- read_handle self ;;
  ret (_Click.__init__ (_ui o) (_selector o)).

Definition drag (self : loc) : Py _Drag.t :=
  o <- read_handle self ;;
  ret (_Drag.__init__ (_ui o) (_selector o)).

Definition exists_ (self : loc) : Py pyval :=
  o <- read_handle self ;;
  sel <- byselector.to_dict (_selector o) ;;
  is_exists <- rpc (_ui o) "exists" [sel] ;;
  o <- read_handle self ;;
  if negb (truthy is_exists) && _raise_error o then
    sel' <- byselector.to_dict (_selector o) ;;
    raise (Exn UiObjectSearchError
             ("Not found Selector" +:+ format_value sel')
             (Some (_device o)) None)
  else ret is_exists.

Definition assert_exists (self : loc) (error_msg : string) : Py unit :=
  o <- read_handle self ;;
  let current_raise_error := _raise_error o in
  try_finally
    (try_except
       (setattr_raise_error self true ;;;
        (exists_ self ;;;
         ret tt))
       UiObjectSearchError
       (fun e =>
          o <- read_handle self ;;
          raise (Exn UiObjectSearchError error_msg (Some (_device o))
                   (Some e))))
    (setattr_raise_error self current_raise_error).

Definition fling (self : loc) : Py _Gesture.t :=
  o <- read_handle self ;;
  ret (_Gesture.__init__ (_ui o) (_selector o) "fling").

Definition scroll (self : loc) : Py _Scroll.t :=
  o <- read_handle self ;;
  ret (_Scroll.__init__ (_ui o) (_selector o)).

Definition swipe (self : loc) : Py _Gesture.t :=
  o <- read_handle self ;;
  ret (_Gesture.__init__ (_ui o) (_selector o) "swipe").

Definition wait (self : loc) : Py _Wait.t :=
  o <- read_handle self ;;
  ret (_Wait.__init__ (_ui o) (_selector o) (_raise_error o)).

(** The methods and properties that hand the serialized selector to one
    remote method and return its answer.  ([count], [visible_bounds] and
    [visible_center] are left out: they post-process the answer with [len]
    on a list and with the record types of [constants].) *)
Definition clear_text (self : loc) : Py pyval :=
  o <- read_handle self ;;
  sel <- byselector.to_dict (_selector o) ;;
  rpc (_ui o) "clear" [sel].

Definition find (self : loc) (kw : kwargs) : Py pyval :=
  o <- read_handle self ;;
  sel <- byselector.to_dict (_selector o) ;;
  rpc (_ui o) "findChildObjects" [sel; byselector.criteria_to_dict kw].

Definition has (self : loc) (kw : kwargs) : Py pyval :=
  o <- read_handle self ;;
  sel <- byselector.to_dict (_selector o) ;;
  rpc (_ui o) "hasChildObject" [sel; byselector.criteria_to_dict kw].

Definition long_click (self : loc) : Py pyval :=
  o <- read_handle self ;;
  sel <- byselector.to_dict (_selector o) ;;
  rpc (_ui o) "longClick" [sel].

Definition set_text (self : loc) (text : string) : Py pyval :=
  o <- read_handle self ;;
  sel <- byselector.to_dict (_selector o) ;;
  rpc (_ui o) "setText" [sel; PStr text].

Definition children (self : loc) : Py pyval :=
  o <- read_handle self ;;
  sel <- byselector.to_dict (_selector o) ;;
  rpc (_ui o) "getChildren" [sel].

Definition info (self : loc) : Py pyval :=
  o <- read_handle self ;;
  sel <- byselector.to_dict (_selector o) ;;
  rpc (_ui o) "getObjInfo" [sel].

Definition pinch (self : loc) : Py _Pinch.t :=
  o <- read_handle self ;;
  ret (_Pinch.__init__ (_ui o) (_selector o)).

Definition display_id (self : loc) : Py pyval :=
  o <- read_handle self ;;
  sel <- byselector.to_dict (_selector o) ;;
  rpc (_ui o) "getDisplayId" [sel].

Definition class_name (self : loc) : Py pyval :=
  o <- read_handle self ;;
  sel <- byselector.to_dict (_selector o) ;;
  rpc (_ui o) "getClassName" [sel].

Definition description (self : loc) : Py pyval :=
  o <- read_handle self ;;
  sel <- byselector.to_dict (_selector o) ;;
  rpc (_ui o) "getContentDescription" [sel].

Definition hint (self : loc) : Py pyval :=
  o <- read_handle self ;;
  sel <- byselector.to_dict (_selector o) ;;
  rpc (_ui o) "getHint" [sel].

Definition package_name (self : loc) : Py pyval :=
  o <- read_handle self ;;
  sel <- byselector.to_dict (_selector o) ;;
  rpc (_ui o) "getApplicationPackage" [sel].

Definition resource_id (self : loc) : Py pyval :=
  o <- read_handle self ;;
  sel <- byselector.to_dict (_selector o) ;;
  rpc (_ui o) "getResourceName" [sel].

Definition text (self : loc) : Py pyval :=
  o <- read_handle self ;;
  sel <- byselector.to_dict (_selector o) ;;
  rpc (_ui o) "getText" [sel].

Definition checkable (self : loc) : Py pyval :=
  o <- read_handle self ;;
  sel <- byselector.to_dict (_selector o) ;;
  rpc (_ui o) "isCheckable" [sel].

Definition checked (self : loc) : Py pyval :=
  o <- read_handle self ;;
  sel <- byselector.to_dict (_selector o) ;;
  rpc (_ui o) "isChecked" [sel].

Definition clickable (self : loc) : Py pyval :=
  o <- read_handle self ;;
  sel <- byselector.to_dict (_selector o) ;;
  rpc (_ui o) "isClickable" [sel].

Definition enabled (self : loc) : Py pyval :=
  o <- read_handle self ;;
  sel <- byselector.to_dict (_selector o) ;;
  rpc (_ui o) "isEnabled" [sel].

Definition focusable (self : loc) : Py pyval :=
  o <- read_handle self ;;
  sel <- byselector.to_dict (_selector o) ;;
  rpc (_ui o) "isFocusable" [sel].

Definition focused (self : loc) : Py pyval :=
  o <- read_handle self ;;
  sel <- byselector.to_dict (_selector o) ;;
  rpc (_ui o) "isFocused" [sel].

Definition long_clickable (self : loc) : Py pyval :=
  o <- read_handle self ;;
  sel <- byselector.to_dict (_selector o) ;;
  rpc (_ui o) "isLongClickable" [sel].

Definition scrollable (self : loc) : Py pyval :=
  o <- read_handle self ;;
  sel <- byselector.to_dict (_selector o) ;;
  rpc (_ui o) "isScrollable" [sel].

Definition selected (self : loc) : Py pyval :=
  o <- read_handle self ;;
  sel <- byselector.to_dict (_selector o) ;;
  rpc (_ui o) "isSelected" [sel].
End methods.

End UiObject2.

(** * Vocabulary of the statements *)

(** The remote calls a run added to the log of the world it started in. *)
Definition issues {A} (run : outcome A * World) (w : World)
    (calls : list rpc_call) : Prop :=
  rpc_log run.2 = rpc_log w ++ calls.

(** The run ended in the exception [e] and made no remote call. *)
Definition raises_without_call {A} (run : outcome A * World) (w : World)
    (e : exn) : Prop :=
  run.1 = Raised e /\ rpc_log run.2 = rpc_log w.

(** What the remote side answers to the call [c] made in the world [w]. *)
Definition answer (ui : SnippetClientV2) (w : World) (c : rpc_call)
    : outcome pyval :=
  match respond ui (rpc_log w) c with
  | Returns v => Returned v
  | Throws e => Raised e
  end.

(** The run made the single remote call [c] and its outcome is the answer to
    that call. *)
Definition delegates_to (run : outcome pyval * World) (ui : SnippetClientV2)
    (w : World) (c : rpc_call) : Prop :=
  run.1 = answer ui w c /\ issues run w [c].

(** The computation leaves the store of handles as it found it. *)
Definition keeps_handles {A} (m : Py A) : Prop :=
  forall w, handles (m w).2 = handles w.

(** The selector chain seen through the handle at [h]. *)
Definition observed (w : World) (h : loc) : option BySelector :=
  o ← handles w !! h; selectors w !! _selector o.

(** The operations behind the timeout guard, with the per-call override of
    the two waits. *)
Inductive guarded_operation : Type :=
| ClickWait
| WaitExists (raise_error : bool)
| WaitGone (raise_error : bool).

(** The remote method each guarded operation calls once it passed. *)
Definition guarded_method (op : guarded_operation) : string :=
  match op with
  | ClickWait => "clickObjAndWait"
  | WaitExists _ => "waitForExists"
  | WaitGone _ => "waitUntilGone"
  end.

(** The navigation calls of a handle. *)
Inductive navigation : Type :=
| Parent
| Ancestor (kw : kwargs)
| Child (kw : kwargs)
| Sibling (kw : kwargs)
| Bottom (kw : kwargs)
| Left (kw : kwargs)
| Right (kw : kwargs)
| Top (kw : kwargs).

Definition navigate (self : loc) (n : navigation) : Py loc :=
  match n with
  | Parent => UiObject2.parent self
  | Ancestor kw => UiObject2.ancestor self kw
  | Child kw => UiObject2.child self kw
  | Sibling kw => UiObject2.sibling self kw
  | Bottom kw => UiObject2.bottom self kw
  | Left kw => UiObject2.left self kw
  | Right kw => UiObject2.right self kw
  | Top kw => UiObject2.top self kw
  end.

(** The step a navigation call stands for. *)
Definition navigation_step (n : navigation) : string * kwargs :=
  match n with
  | Parent => ("parent", [])
  | Ancestor kw => ("ancestor", kw)
  | Child kw => ("child", kw)
  | Sibling kw => ("sibling", kw)
  | Bottom kw => ("bottom", kw)
  | Left kw => ("left", kw)
  | Right kw => ("right", kw)
  | Top kw => ("top", kw)
  end.

(** The four shapes of a scroll call and the rejected rest, read off the
    arguments: a percentage alone (with or without a speed); criteria alone;
    a target handle alone; nothing at all; anything else. *)
Inductive scroll_shape : Type :=
| FixedDistance
| UntilCriteria
| UntilTarget
| ToEnd
| Mixed.

Definition shape_of (percent speed : option Z) (target : option loc)
    (kw : kwargs) : scroll_shape :=
  match percent, speed, target, kw with
  | Some _, _, None, [] => FixedDistance
  | None, None, None, _ :: _ => UntilCriteria
  | None, None, Some _, [] => UntilTarget
  | None, None, None, [] => ToEnd
  | _, _, _, _ => Mixed
  end.

(** An optional handle as the value of the [target] argument. *)
Definition of_target (target : option loc) : pyval :=
  match target with
  | Some h => PHandle h
  | None => PNone
  end.

Section statement_vocabulary.
Context `{Externals}.

(** A guarded operation on builders made for the selector [sel]; [sticky]
    is the flag the wait builder was made with. *)
Definition run_guarded (ui : SnippetClientV2) (sel : loc) (sticky : bool)
    (op : guarded_operation) (timeout : TimeUnit) : Py pyval :=
  match op with
  | ClickWait => _Click.wait (_Click.__init__ ui sel) timeout
  | WaitExists r => _Wait.exists_ (_Wait.__init__ ui sel sticky) timeout r
  | WaitGone r => _Wait.gone (_Wait.__init__ ui sel sticky) timeout r
  end.

(** The hold time of a click in milliseconds, as handed to the remote
    side: the deprecated [timeout] when given, else [duration], else
    [None]. *)
Definition hold_time (duration timeout : option TimeUnit) : pyval :=
  match timeout, duration with
  | Some t, _ => PInt (covert_to_millisecond t)
  | None, Some d => PInt (covert_to_millisecond d)
  | None, None => PNone
  end.

(** The messages of the two object-search errors of the waits. *)
Definition not_found_message (s : BySelector) (timeout_ms : Z) : string :=
  "Not found Selector" +:+ format_value (wire_format s) +:+ " over "
  +:+ format_value (PInt timeout_ms) +:+ " ms".
End statement_vocabulary.

(** ** Vocabulary of the further properties *)

(** The four directions of a gesture or scroll builder. *)
Inductive direction : Type :=
| Down
| Leftwards
| Rightwards
| Up.

(** The direction as the remote side receives it. *)
Definition direction_name (d : direction) : string :=
  match d with
  | Down => "DOWN"
  | Leftwards => "LEFT"
  | Rightwards => "RIGHT"
  | Up => "UP"
  end.

(** The direction property of a gesture builder. *)
Definition gesture_towards (g : _Gesture.t) (d : direction) : _Gesture._To.t :=
  match d with
  | Down => _Gesture.down g
  | Leftwards => _Gesture.left g
  | Rightwards => _Gesture.right g
  | Up => _Gesture.up g
  end.

(** The direction property of a scroll builder. *)
Definition scroll_towards (b : _Scroll.t) (d : direction) : _Scroll._To.t :=
  match d with
  | Down => _Scroll.down b
  | Leftwards => _Scroll.left b
  | Rightwards => _Scroll.right b
  | Up => _Scroll.up b
  end.



(** The methods and properties of a handle that pass the selector to one
    remote method. *)
Inductive query : Type :=
| ClearText
| LongClick
| SetText (text : string)
| Children
| Info
| DisplayId
| ClassName
| Description
| Hint
| PackageName
| ResourceId
| Text
| Checkable
| Checked
| Clickable
| Enabled
| Focusable
| Focused
| LongClickable
| Scrollable
| Selected.

(** The remote method of a query, and the arguments it sends after the
    selector. *)
Definition query_method (q : query) : string :=
  match q with
  | ClearText => "clear"
  | LongClick => "longClick"
  | SetText _ => "setText"
  | Children => "getChildren"
  | Info => "getObjInfo"
  | DisplayId => "getDisplayId"
  | ClassName => "getClassName"
  | Description => "getContentDescription"
  | Hint => "getHint"
  | PackageName => "getApplicationPackage"
  | ResourceId => "getResourceName"
  | Text => "getText"
  | Checkable => "isCheckable"
  | Checked => "isChecked"
  | Clickable => "isClickable"
  | Enabled => "isEnabled"
  | Focusable => "isFocusable"
  | Focused => "isFocused"
  | LongClickable => "isLongClickable"
  | Scrollable => "isScrollable"
  | Selected => "isSelected"
  end.

Definition query_arguments (q : query) : list pyval :=
  match q with
  | SetText text => [PStr text]
  | _ => []
  end.

(** The world [w] after the remote calls [calls] and nothing else. *)
Definition after_calls (w : World) (calls : list rpc_call) : World :=
  with_rpc_log (fun log => log ++ calls) w.

Section further_vocabulary.
Context `{Externals}.

Definition run_query (self : loc) (q : query) : Py pyval :=
  match q with
  | ClearText => UiObject2.clear_text self
  | LongClick => UiObject2.long_click self
  | SetText text => UiObject2.set_text self text
  | Children => UiObject2.children self
  | Info => UiObject2.info self
  | DisplayId => UiObject2.display_id self
  | ClassName => UiObject2.class_name self
  | Description => UiObject2.description self
  | Hint => UiObject2.hint self
  | PackageName => UiObject2.package_name self
  | ResourceId => UiObject2.resource_id self
  | Text => UiObject2.text self
  | Checkable => UiObject2.checkable self
  | Checked => UiObject2.checked self
  | Clickable => UiObject2.clickable self
  | Enabled => UiObject2.enabled self
  | Focusable => UiObject2.focusable self
  | Focused => UiObject2.focused self
  | LongClickable => UiObject2.long_clickable self
  | Scrollable => UiObject2.scrollable self
  | Selected => UiObject2.selected self
  end.

(** The message of the object-search error of [_Wait.gone]. *)
Definition still_found_message (s : BySelector) (timeout_ms : Z) : string :=
  "Still found Selector" +:+ format_value (wire_format s) +:+ " over "
  +:+ format_value (PInt timeout_ms) +:+ " ms".

(** The error of the timeout guard. *)
Definition long_timeout_error : exn :=
  Exn ApiError ERROR_MSG_FOR_LONG_TIMEOUT None None.
End further_vocabulary.

(** * Sample data

    An instance of the imports and a small world, to run the methods on
    concrete inputs.  The values are arbitrary. *)

Definition sample_wire_format (s : BySelector) : pyval :=
  PDict (by_criteria s ++ map (fun step => (step.1, PDict step.2)) (steps s)).

Definition sample_format_value (v : pyval) : string :=
  match v with
  | PInt z => pretty z
  | PStr s => s
  | _ => "<" +:+ type_name v +:+ ">"
  end.

Definition sample_externals : Externals :=
  {| TimeUnit := Z;
     covert_to_millisecond := fun t => t;
     DEFAULT_SNIPPET_RPC_TIMEOUT := 60000;
     DEFAULT_UI_WAIT_TIME := 5000;
     ERROR_MSG_FOR_LONG_TIMEOUT := "timeout is longer than the RPC timeout";
     wire_format := sample_wire_format;
     format_value := sample_format_value |}.

(** A remote side that answers every call with the same value. *)
Definition constant_ui (v : pyval) : SnippetClientV2 :=
  {| ui_device := "emulator-5554"; respond := fun _ _ => Returns v |}.

(** A remote side whose transport fails on every call. *)
Definition failing_ui : SnippetClientV2 :=
  {| ui_device := "emulator-5554";
     respond := fun _ _ =>
       Throws (Exn RpcFailure "connection lost" None None) |}.

Definition sample_selector : BySelector :=
  byselector.new [("res", PStr "com.example:id/list")].

Definition sample_target_selector : BySelector :=
  byselector.new [("text", PStr "Settings")].

(** A world with a handle at address 1 on the selector at address 1, and a
    second handle at address 2 on the selector at address 2. *)
Definition sample_world (ui : SnippetClientV2) (raise_error : bool) : World :=
  {| handles :=
       {[ 1%positive := {| _ui := ui; _device := ui_device ui;
                           _selector := 1%positive;
                           _raise_error := raise_error |};
          2%positive := {| _ui := ui; _device := ui_device ui;
                           _selector := 2%positive;
                           _raise_error := raise_error |} ]};
     selectors := {[ 1%positive := sample_selector;
                     2%positive := sample_target_selector ]};
     rpc_log := [];
     warnings_log := [] |}.

(** The object at address 1 of a sample world. *)
Definition sample_handle (ui : SnippetClientV2) (raise_error : bool)
    : UiObject2 :=
  {| _ui := ui; _device := ui_device ui; _selector := 1%positive;
     _raise_error := raise_error |}.

(** A wait builder on the first sample selector. *)
Definition sample_wait (ui : SnippetClientV2) (sticky : bool) : _Wait.t :=
  @_Wait.__init__ sample_externals ui 1%positive sticky.

(** The worlds of the runs below: the remote side answers true, answers
    false, or fails. *)
Definition world_yes : World := sample_world (constant_ui (PBool true)) false.
Definition world_no : World := sample_world (constant_ui (PBool false)) false.
Definition world_no_strict : World :=
  sample_world (constant_ui (PBool false)) true.

(** * Properties *)

Section basic_runs.
Context `{Externals}.

Lemma to_dict_run (l : loc) (s : BySelector) (w : World) :
  selectors w !! l = Some s ->
  byselector.to_dict l w = (Returned (wire_format s), w).
Proof.
  intros Hs. unfold byselector.to_dict, bind, read_selector, ret.
  now rewrite Hs.
Qed.

Lemma to_dict_bind {B} (l : loc) (s : BySelector) (k : pyval -> Py B)
    (w : World) :
  selectors w !! l = Some s ->
  (sel <- byselector.to_dict l ;; k sel) w = k (wire_format s) w.
Proof.
  intros Hs. unfold bind at 1. now rewrite (to_dict_run l s w Hs).
Qed.
End basic_runs.

Lemma rpc_delegates (ui : SnippetClientV2) (method : string)
    (args : list pyval) (w w' : World) :
  rpc_log w' = rpc_log w ->
  delegates_to (rpc ui method args w') ui w (Rpc method args).
Proof.
  intros Hlog. unfold delegates_to, issues, answer, rpc. rewrite Hlog.
  destruct (respond ui (rpc_log w) (Rpc method args)); simpl;
    now rewrite Hlog.
Qed.

Lemma rpc_frame (ui : SnippetClientV2) (method : string)
    (args : list pyval) (w : World) :
  handles (rpc ui method args w).2 = handles w
  /\ selectors (rpc ui method args w).2 = selectors w.
Proof.
  unfold rpc.
  destruct (respond ui (rpc_log w) (Rpc method args)); simpl; auto.
Qed.

(** Unfolds the monad and the store reads of a run. *)
Ltac store_simpl :=
  cbn [selectors handles rpc_log warnings_log with_warnings_log
       with_rpc_log with_handles with_selectors fst snd].

Ltac py_unfold :=
  cbv [bind ret raise warnings_warn byselector.to_dict read_selector
       read_handle getattr_selector];
  store_simpl.

Lemma rpc_returns (ui : SnippetClientV2) (method : string)
    (args : list pyval) (v : pyval) (w : World) :
  respond ui (rpc_log w) (Rpc method args) = Returns v ->
  rpc ui method args w
  = (Returned v, with_rpc_log (fun log => log ++ [Rpc method args]) w).
Proof. intros Hr. unfold rpc. now rewrite Hr. Qed.

Lemma kw_remove_absent (k : string) (kw : kwargs) :
  kw_get k kw = None -> kw_remove k kw = kw.
Proof.
  induction kw as [|[k' v] kw IH]; [reflexivity|].
  cbn [kw_get kw_remove]. destruct (String.eqb k' k); [discriminate|].
  intros Hrest. now rewrite IH.
Qed.

Lemma raised_without_call {A} (e : exn) (w : World) :
  raises_without_call (@raise A e w) w e.
Proof. split; reflexivity. Qed.

(** ** Computations that leave the handles alone *)

Lemma keeps_ret {A} (a : A) : keeps_handles (ret a).
Proof. intros w. reflexivity. Qed.

Lemma keeps_raise {A} (e : exn) : keeps_handles (@raise A e).
Proof. intros w. reflexivity. Qed.

Lemma keeps_bind {A B} (m : Py A) (k : A -> Py B) :
  keeps_handles m -> (forall a, keeps_handles (k a)) ->
  keeps_handles (bind m k).
Proof.
  intros Hm Hk w. unfold bind. specialize (Hm w).
  destruct (m w) as [[a|e] w']; cbn [snd] in *.
  - now rewrite Hk.
  - exact Hm.
Qed.

Lemma keeps_if {A} (b : bool) (m1 m2 : Py A) :
  keeps_handles m1 -> keeps_handles m2 ->
  keeps_handles (if b then m1 else m2).
Proof. now destruct b. Qed.

Lemma keeps_rpc (ui : SnippetClientV2) (method : string) (args : list pyval) :
  keeps_handles (rpc ui method args).
Proof. intros w. apply rpc_frame. Qed.

Lemma keeps_read_handle (l : loc) : keeps_handles (read_handle l).
Proof. intros w. unfold read_handle. now destruct (handles w !! l). Qed.

Lemma keeps_read_selector (l : loc) : keeps_handles (read_selector l).
Proof. intros w. unfold read_selector. now destruct (selectors w !! l). Qed.

Lemma keeps_to_dict `{Externals} (l : loc) :
  keeps_handles (byselector.to_dict l).
Proof.
  unfold byselector.to_dict.
  apply keeps_bind; [apply keeps_read_selector|intros; apply keeps_ret].
Qed.

Lemma try_except_keeps {A} (body : Py A) (cls : exn_class)
    (handler : exn -> Py A) :
  keeps_handles body -> (forall e, keeps_handles (handler e)) ->
  keeps_handles (try_except body cls handler).
Proof.
  intros Hb Hh w. unfold try_except. specialize (Hb w).
  destruct (body w) as [[a|e] w']; cbn [snd] in *; [exact Hb|].
  destruct (decide _); [|exact Hb]. now rewrite Hh.
Qed.

Lemma try_finally_world {A} (body : Py A) (cleanup : Py unit) (w : World) :
  (try_finally body cleanup w).2 = (cleanup (body w).2).2.
Proof.
  unfold try_finally. destruct (body w) as [r w1]. cbn [snd].
  now destruct (cleanup w1) as [[[]|e] w2].
Qed.

Lemma setattr_run (self : loc) (b : bool) (o : UiObject2) (w : World) :
  handles w !! self = Some o ->
  UiObject2.setattr_raise_error self b w
  = (Returned (), with_handles <[self := set_raise_error b o]> w).
Proof.
  intros Ho. unfold UiObject2.setattr_raise_error, write_handle.
  py_unfold. now rewrite !Ho.
Qed.

Create HintDb keeps discriminated.
#[local] Hint Resolve keeps_ret keeps_raise keeps_bind keeps_if keeps_rpc
  keeps_read_handle keeps_read_selector keeps_to_dict : keeps.

(** ** Timeout guard *)

Section timeout_guard.
Context `{Externals}.

(** C1.  Timeout guard of [_Click.wait], [_Wait.exists] and [_Wait.gone]:
    when the timeout in milliseconds reaches the RPC timeout, the
    operation raises [ApiError] and no remote call is made (the world is
    left as it was); when it is below, exactly one remote call is issued,
    the wait or click call with the serialized selector and the timeout in
    milliseconds. *)
Theorem timeout_guard (ui : SnippetClientV2) (sel : loc) (sticky : bool)
    (op : guarded_operation) (timeout : TimeUnit) (s : BySelector)
    (w : World) :
  selectors w !! sel = Some s ->
  let ceiling := covert_to_millisecond DEFAULT_SNIPPET_RPC_TIMEOUT in
  let timeout_ms := covert_to_millisecond timeout in
  let run := run_guarded ui sel sticky op timeout w in
  (ceiling <= timeout_ms ->
     raises_without_call run w
       (Exn ApiError ERROR_MSG_FOR_LONG_TIMEOUT None None)
     /\ run.2 = w)
  /\ (timeout_ms < ceiling ->
        issues run w
          [Rpc (guarded_method op) [wire_format s; PInt timeout_ms]]).
Proof.
  intros Hs ceiling timeout_ms run. split.
  - intros Hge.
    assert (run = (Raised (Exn ApiError ERROR_MSG_FOR_LONG_TIMEOUT None None), w))
      as ->.
    { subst run. destruct op; simpl;
        unfold _Click.wait, _Wait.exists_, _Wait.gone; simpl;
        fold ceiling timeout_ms;
        destruct (Z.leb_spec ceiling timeout_ms); try lia; reflexivity. }
    repeat split.
  - intros Hlt. subst run. unfold issues.
    destruct op; simpl;
      unfold _Click.wait, _Wait.exists_, _Wait.gone; simpl;
      fold ceiling timeout_ms;
      destruct (Z.leb_spec ceiling timeout_ms); try lia;
      rewrite (to_dict_bind _ _ _ _ Hs).
    + apply rpc_delegates. reflexivity.
    + unfold bind, rpc.
      destruct (respond _ _ _) as [v|e]; simpl; [|reflexivity].
      destruct (truthy v); [reflexivity|].
      destruct (sticky || raise_error); [|reflexivity].
      unfold byselector.to_dict, bind, read_selector, raise, ret. simpl.
      now rewrite Hs.
    + unfold bind, rpc.
      destruct (respond _ _ _) as [v|e]; simpl; [|reflexivity].
      destruct (truthy v); [reflexivity|].
      destruct (sticky || raise_error); [|reflexivity].
      unfold byselector.to_dict, bind, read_selector, raise, ret. simpl.
      now rewrite Hs.
Qed.
End timeout_guard.

(** The guard at the ceiling itself and one millisecond below it, for a wait
    on the first sample selector. *)
Lemma timeout_guard_witness :
  selectors (sample_world (constant_ui (PBool false)) false) !! 1%positive
  = Some sample_selector
  /\ @run_guarded sample_externals (constant_ui (PBool false)) 1%positive
       false (WaitExists false) 60000
       (sample_world (constant_ui (PBool false)) false)
     = (Raised (Exn ApiError "timeout is longer than the RPC timeout"
                  None None),
        sample_world (constant_ui (PBool false)) false)
  /\ rpc_log (@run_guarded sample_externals (constant_ui (PBool false))
                1%positive false (WaitExists false) 59999
                (sample_world (constant_ui (PBool false)) false)).2
     = [Rpc "waitForExists" [sample_wire_format sample_selector; PInt 59999]].
Proof.
  pose proof (@timeout_guard sample_externals (constant_ui (PBool false))
                1%positive false (WaitExists false) 60000 sample_selector
                (sample_world (constant_ui (PBool false)) false)
                eq_refl) as [Hreject _].
  pose proof (@timeout_guard sample_externals (constant_ui (PBool false))
                1%positive false (WaitExists false) 59999 sample_selector
                (sample_world (constant_ui (PBool false)) false)
                eq_refl) as [_ Haccept].
  split; [reflexivity|]. split.
  - destruct (Hreject ltac:(simpl; lia)) as [[Hout _] Hworld].
    apply injective_projections; assumption.
  - apply (Haccept ltac:(simpl; lia)).
Defined.

(** ** Dispatch of click, drag and the gestures *)

Section dispatch.
Context `{Externals}.

(** C4.  [_Click.__call__]: with exactly one of [x] and [y] it raises
    [ApiError] and makes no remote call; with both it makes the single
    call [clickObjPoint] with the selector, [x], [y] and the hold time in
    milliseconds; with neither it makes the single call [clickObj] with
    the selector and the hold time in milliseconds. *)
Theorem click_dispatch (self : _Click.t) (duration timeout : option TimeUnit)
    (x y : option Z) (s : BySelector) (w : World) :
  selectors w !! _Click._selector self = Some s ->
  let run := _Click.__call__ self duration timeout x y w in
  match x, y with
  | Some a, Some b =>
      delegates_to run (_Click._ui self) w
        (Rpc "clickObjPoint"
           [wire_format s; PInt a; PInt b; hold_time duration timeout])
  | None, None =>
      delegates_to run (_Click._ui self) w
        (Rpc "clickObj" [wire_format s; hold_time duration timeout])
  | _, _ =>
      raises_without_call run w
        (Exn ApiError "Must provide both x and y to click on point"
           None None)
  end.
Proof.
  intros Hs run. subst run. unfold _Click.__call__, hold_time.
  destruct timeout as [t|], duration as [d|], x as [a|], y as [b|];
    cbn [given of_optional andb negb];
    py_unfold; rewrite ?Hs;
    first [ apply rpc_delegates; reflexivity | split; reflexivity ].
Qed.

(** C7.  [_Drag.to]: coordinates and criteria exclude each other.  With
    [x] and [y] and no criteria it makes the single call [dragObj]; with
    criteria and neither [x] nor [y] it makes the single call
    [dragObjToObj] with the serialized criteria; in every other case it
    raises [ApiError] and makes no remote call. *)
Theorem drag_dispatch (self : _Drag.t) (x y speed : option Z) (kw : kwargs)
    (s : BySelector) (w : World) :
  selectors w !! _Drag._selector self = Some s ->
  let run := _Drag.to self x y speed kw w in
  let mixed :=
    Exn ApiError "Drag to object and drag to coordinates cannot be mixed"
      (Some (_Drag._device self)) None in
  (forall a b, x = Some a -> y = Some b -> kw = [] ->
     delegates_to run (_Drag._ui self) w
       (Rpc "dragObj" [wire_format s; PInt a; PInt b; of_optional speed]))
  /\ (x = None -> y = None -> kw <> [] ->
        delegates_to run (_Drag._ui self) w
          (Rpc "dragObjToObj"
             [wire_format s; byselector.criteria_to_dict kw;
              of_optional speed]))
  /\ ((x <> None \/ y <> None) -> kw <> [] ->
        raises_without_call run w mixed /\ run.2 = w)
  /\ (x = None -> y = None -> kw = [] ->
        raises_without_call run w mixed /\ run.2 = w)
  /\ ((x = None /\ y <> None) \/ (x <> None /\ y = None) ->
        raises_without_call run w mixed /\ run.2 = w).
Proof.
  intros Hs run mixed. subst run mixed. unfold _Drag.to.
  destruct x as [a0|], y as [b0|], kw as [|item kw];
    cbn [given nonempty of_optional andb negb];
    py_unfold; rewrite ?Hs;
    repeat split; intros; simplify_eq;
    try tauto; try (intuition congruence);
    apply rpc_delegates; reflexivity.
Qed.
(** C5.  The call of a gesture direction sub-builder.  For the action
    [fling]: a percent other than 0 raises [ApiError] without any remote
    call, percent 0 makes the single call [fling].  For the action
    [swipe]: a percent below 0 or above 100 raises [ApiError] without any
    remote call, a percent from 0 to 100 makes the single call
    [swipeObj]. *)
Theorem gesture_dispatch (self : _Gesture._To.t) (percent : Z)
    (speed : option Z) (s : BySelector) (w : World) :
  selectors w !! _Gesture._To._selector self = Some s ->
  let run := _Gesture._To.__call__ self percent speed w in
  let ui := _Gesture._To._ui self in
  let device := Some (_Gesture._To._device self) in
  let direction := PStr (_Gesture._To._direction self) in
  let margins :=
    [of_optional (_Gesture._To._margin self);
     of_optional (_Gesture._To._percent self)] in
  (_Gesture._To._action self = "fling" ->
     (percent <> 0 ->
        raises_without_call run w
          (Exn ApiError
             "fling gesture does not support changing the percent"
             device None)
        /\ run.2 = w)
     /\ (percent = 0 ->
           delegates_to run ui w
             (Rpc "fling"
                ([wire_format s; direction; of_optional speed] ++ margins))))
  /\ (_Gesture._To._action self = "swipe" ->
        (percent < 0 \/ 100 < percent ->
           raises_without_call run w
             (Exn ApiError
                "swipe gesture requires percent to be between 0 and 100"
                device None)
           /\ run.2 = w)
        /\ (0 <= percent <= 100 ->
              delegates_to run ui w
                (Rpc "swipeObj"
                   ([wire_format s; direction; PInt percent;
                     of_optional speed] ++ margins)))).
Proof.
  intros Hs run ui device direction margins.
  subst run ui device direction margins. unfold _Gesture._To.__call__.
  split; intros ->; cbn [String.eqb Ascii.eqb Bool.eqb]; split.
  - intros Hne. destruct (Z.eqb_spec percent 0); [contradiction|].
    repeat split.
  - intros ->. rewrite Z.eqb_refl. cbn [negb].
    py_unfold. rewrite Hs. apply rpc_delegates. reflexivity.
  - intros Hout.
    assert ((0 <=? percent) && (percent <=? 100) = false) as ->
      by (apply andb_false_iff; lia).
    repeat split.
  - intros Hin.
    assert ((0 <=? percent) && (percent <=? 100) = true) as ->
      by (apply andb_true_iff; lia).
    cbn [negb]. py_unfold. rewrite Hs. apply rpc_delegates. reflexivity.
Qed.

(** C2.  The call of a scroll direction sub-builder makes exactly one of
    four remote calls, chosen by the shape of its arguments, or raises:
    a percentage with neither target nor criteria makes the call [scroll];
    criteria alone make the call [scrollUntil] with the criteria; a target
    handle alone makes the call [scrollUntil] with the serialized selector
    of the target; no argument at all makes the call
    [scrollUntilFinished]; every other combination raises [ApiError]
    without any remote call. *)
Theorem scroll_dispatch (self : _Scroll._To.t) (percent speed : option Z)
    (target : option loc) (kw : kwargs) (s ts : BySelector) (w : World) :
  selectors w !! _Scroll._To._selector self = Some s ->
  (forall h, target = Some h -> observed w h = Some ts) ->
  let run :=
    _Scroll._To.__call__ self (of_optional percent) (of_optional speed)
      (of_target target) kw w in
  let ui := _Scroll._To._ui self in
  let direction := PStr (_Scroll._To._direction self) in
  let margins :=
    [of_optional (_Scroll._To._margin self);
     of_optional (_Scroll._To._percent self)] in
  match shape_of percent speed target kw with
  | FixedDistance =>
      delegates_to run ui w
        (Rpc "scroll"
           ([wire_format s; direction; of_optional percent;
             of_optional speed] ++ margins))
  | UntilCriteria =>
      delegates_to run ui w
        (Rpc "scrollUntil" ([wire_format s; PDict kw; direction] ++ margins))
  | UntilTarget =>
      delegates_to run ui w
        (Rpc "scrollUntil"
           ([wire_format s; wire_format ts; direction] ++ margins))
  | ToEnd =>
      delegates_to run ui w
        (Rpc "scrollUntilFinished" ([wire_format s; direction] ++ margins))
  | Mixed =>
      raises_without_call run w (_Scroll._To.mixed_error self)
      /\ run.2 = w
  end.
Proof.
  intros Hs Ht run ui direction margins.
  subst run ui direction margins. unfold _Scroll._To.__call__, shape_of.
  destruct percent as [p|], speed as [v|], target as [h|], kw as [|item kw];
    cbn [of_optional of_target is_none nonempty negb andb];
    try (repeat split; fail);
    try (py_unfold; rewrite Hs; apply rpc_delegates; reflexivity).
  specialize (Ht h eq_refl). unfold observed in Ht.
  destruct (handles w !! h) as [o|] eqn:Ho; [|discriminate].
  cbn in Ht. py_unfold. rewrite Hs, Ho.
  cbn [selectors]. rewrite Ht.
  apply rpc_delegates. reflexivity.
Qed.

(** Splatting criteria that name none of the parameters of the call passes
    all of them on as criteria. *)
Lemma call_splat_plain (self : _Scroll._To.t) (kw : kwargs) :
  kw_get "percent" kw = None ->
  kw_get "speed" kw = None ->
  kw_get "target" kw = None ->
  _Scroll._To.call_splat self kw
  = _Scroll._To.__call__ self PNone PNone PNone kw.
Proof.
  intros Hp Hs Ht. unfold _Scroll._To.call_splat.
  rewrite Hp, Hs, Ht. cbn [default].
  now rewrite (kw_remove_absent "percent"), (kw_remove_absent "speed"),
    (kw_remove_absent "target").
Qed.

(** The two remote calls of a successful [click] on plain criteria: the
    scroll until the criteria match, then the click on the same
    dictionary. *)
Lemma scroll_click_calls (self : _Scroll._To.t) (kw : kwargs)
    (s : BySelector) (v : pyval) (w : World) :
  kw <> [] ->
  kw_get "percent" kw = None ->
  kw_get "speed" kw = None ->
  kw_get "target" kw = None ->
  selectors w !! _Scroll._To._selector self = Some s ->
  respond (_Scroll._To._ui self) (rpc_log w)
    (Rpc "scrollUntil"
       [wire_format s; PDict kw; PStr (_Scroll._To._direction self);
        of_optional (_Scroll._To._margin self);
        of_optional (_Scroll._To._percent self)]) = Returns v ->
  truthy v = true ->
  issues (_Scroll._To.click self kw w) w
    [Rpc "scrollUntil"
       [wire_format s; PDict kw; PStr (_Scroll._To._direction self);
        of_optional (_Scroll._To._margin self);
        of_optional (_Scroll._To._percent self)];
     Rpc "clickObj" [PDict kw]].
Proof.
  intros Hkw Hp Hv Ht Hs Hreply Htrue. unfold _Scroll._To.click.
  destruct kw as [|item kw]; [contradiction|]. cbn [nonempty negb].
  unfold bind at 1. rewrite (call_splat_plain self _ Hp Hv Ht).
  unfold _Scroll._To.__call__. cbn [is_none nonempty negb andb].
  rewrite to_dict_bind with (s := s) by exact Hs.
  rewrite (rpc_returns _ _ _ v) by exact Hreply. rewrite Htrue.
  unfold issues, rpc. store_simpl.
  match goal with
  | |- context [respond ?ui ?log ?c] => destruct (respond ui log c)
  end; cbn; now rewrite <- app_assoc.
Qed.

(** C10.  [click] of a scroll direction sub-builder, called with at least
    one criterion: when the scroll step returns a true value, the click
    that follows is the remote call [clickObj] whose only argument is the
    dictionary of criteria as the caller gave it; neither the selector of
    the builder nor a serialization of the criteria takes part in it. *)
Theorem scroll_click_raw_criteria (self : _Scroll._To.t) (kw : kwargs)
    (scrolled : pyval) (w w1 : World) :
  kw <> [] ->
  _Scroll._To.call_splat self kw w = (Returned scrolled, w1) ->
  truthy scrolled = true ->
  let run := _Scroll._To.click self kw w in
  run = rpc (_Scroll._To._ui self) "clickObj" [PDict kw] w1
  /\ delegates_to run (_Scroll._To._ui self) w1 (Rpc "clickObj" [PDict kw]).
Proof.
  intros Hkw Hscroll Htrue run.
  assert (run = rpc (_Scroll._To._ui self) "clickObj" [PDict kw] w1) as ->.
  { subst run. unfold _Scroll._To.click.
    destruct kw as [|item kw]; [contradiction|].
    cbn [nonempty negb]. unfold bind. rewrite Hscroll, Htrue. reflexivity. }
  split; [reflexivity|]. apply rpc_delegates. reflexivity.
Qed.
End dispatch.

(** ** Navigation *)

(** What [_create_instance] does to the world: a new selector object holding
    the extended chain, a new handle on it, and nothing else touched. *)
Lemma create_instance_run (self : loc) (tag : string) (kw : kwargs)
    (o : UiObject2) (S : BySelector) (w : World) :
  handles w !! self = Some o ->
  selectors w !! _selector o = Some S ->
  let l := fresh (dom (selectors w)) in
  let h' := fresh (dom (handles w)) in
  let o' := {| _ui := _ui o; _device := ui_device (_ui o); _selector := l;
               _raise_error := _raise_error o |} in
  UiObject2._create_instance self tag kw w
  = (Returned h',
     with_handles <[h' := o']>
       (with_selectors <[l := byselector.extended S tag kw]>
          (with_selectors <[l := S]> w))).
Proof.
  intros Ho HS l h' o'.
  unfold UiObject2._create_instance, byselector.copy, byselector.append,
    UiObject2.__init__, alloc_selector, alloc_handle, write_selector.
  py_unfold. rewrite Ho, HS. cbn [selectors with_selectors].
  fold l. rewrite lookup_insert_eq. cbn [selectors with_selectors].
  rewrite lookup_insert_eq. reflexivity.
Qed.

Lemma fresh_selector_unused (w : World) :
  selectors w !! fresh (dom (selectors w)) = None.
Proof. apply not_elem_of_dom, is_fresh. Qed.

Lemma fresh_handle_unused (w : World) :
  handles w !! fresh (dom (handles w)) = None.
Proof. apply not_elem_of_dom, is_fresh. Qed.

(** The effect of [_create_instance] on what the handles observe. *)
Lemma create_instance_spec (self : loc) (tag : string) (kw : kwargs)
    (S : BySelector) (w : World) :
  observed w self = Some S ->
  exists h' w',
    UiObject2._create_instance self tag kw w = (Returned h', w')
    /\ handles w !! h' = None
    /\ (exists o', handles w' !! h' = Some o'
                   /\ selectors w !! _selector o' = None)
    /\ observed w' h' = Some (byselector.extended S tag kw)
    /\ observed w' self = Some S
    /\ (forall other T, observed w other = Some T ->
                        observed w' other = Some T)
    /\ rpc_log w' = rpc_log w.
Proof.
  intros Hobs. unfold observed in Hobs.
  destruct (handles w !! self) as [o|] eqn:Ho; [|discriminate].
  cbn in Hobs.
  pose proof (create_instance_run self tag kw o S w Ho Hobs) as Hrun.
  cbv zeta in Hrun.
  set (l := fresh (dom (selectors w))) in *.
  set (h' := fresh (dom (handles w))) in *.
  pose proof (fresh_selector_unused w) as Hl. fold l in Hl.
  pose proof (fresh_handle_unused w) as Hh. fold h' in Hh.
  assert (Hframe : forall other T,
             (o0 ← handles w !! other; selectors w !! _selector o0) = Some T ->
             observed
               (with_handles
                  <[h' := {| _ui := _ui o; _device := ui_device (_ui o);
                             _selector := l;
                             _raise_error := _raise_error o |}]>
                  (with_selectors <[l := byselector.extended S tag kw]>
                     (with_selectors <[l := S]> w))) other = Some T).
  { intros other T HT. unfold observed. cbn [handles selectors with_handles
      with_selectors].
    destruct (handles w !! other) as [oo|] eqn:Hoo; [|discriminate].
    cbn in HT.
    rewrite lookup_insert_ne by (intros ->; congruence).
    rewrite Hoo. cbn.
    rewrite !lookup_insert_ne by (intros Heq; rewrite <- Heq in HT; congruence).
    exact HT. }
  eexists _, _. split; [exact Hrun|].
  split; [exact Hh|]. split.
  { eexists. cbn [handles with_handles with_selectors].
    rewrite lookup_insert_eq. split; [reflexivity|exact Hl]. }
  split.
  { unfold observed. cbn [handles selectors with_handles with_selectors].
    rewrite lookup_insert_eq. cbn. now rewrite lookup_insert_eq. }
  split.
  { apply Hframe. rewrite Ho. exact Hobs. }
  split; [exact Hframe|reflexivity].
Qed.


(** Two handles branched from the same parent: navigating on from the first
    leaves the chain seen through the second, and through the parent, as it
    was. *)
Lemma branches_do_not_interfere (p a b c : loc) (n1 n2 n3 : navigation)
    (S : BySelector) (w w1 w2 w3 : World) :
  observed w p = Some S ->
  navigate p n1 w = (Returned a, w1) ->
  navigate p n2 w1 = (Returned b, w2) ->
  navigate a n3 w2 = (Returned c, w3) ->
  observed w3 p = Some S
  /\ observed w3 b
     = Some (byselector.extended S (navigation_step n2).1
               (navigation_step n2).2)
  /\ observed w3 a
     = Some (byselector.extended S (navigation_step n1).1
               (navigation_step n1).2).
Proof.
  intros Hp H1 H2 H3.
  assert (Hnav : forall x n, navigate x n
                 = UiObject2._create_instance x (navigation_step n).1
                     (navigation_step n).2) by (intros x []; reflexivity).
  rewrite Hnav in H1, H2, H3.
  destruct (create_instance_spec p (navigation_step n1).1
              (navigation_step n1).2 S w Hp)
    as (a' & w1' & R1 & _ & _ & Ha & Hp1 & _ & _).
  rewrite H1 in R1. injection R1 as <- <-.
  destruct (create_instance_spec p (navigation_step n2).1
              (navigation_step n2).2 S w1 Hp1)
    as (b' & w2' & R2 & _ & _ & Hb & Hp2 & F2 & _).
  rewrite H2 in R2. injection R2 as <- <-.
  pose proof (F2 _ _ Ha) as Ha2.
  destruct (create_instance_spec a (navigation_step n3).1
              (navigation_step n3).2 _ w2 Ha2)
    as (c' & w3' & R3 & _ & _ & _ & Ha3 & F3 & _).
  rewrite H3 in R3. injection R3 as <- <-.
  auto.
Qed.

(** ** Waits and assertions *)

Section waits.
Context `{Externals}.

(** C6.  [_Wait.exists] with a timeout below the ceiling makes the one
    call [waitForExists].  When the remote side answers false: with
    neither the flag of the builder nor the override of the call set, the
    result is [False] and nothing is raised; with either set,
    [UiObjectSearchError] is raised and its message holds the serialized
    selector and the timeout in milliseconds.  When the remote side
    answers true the result is [True]. *)
Theorem wait_exists_outcome (self : _Wait.t) (timeout : TimeUnit)
    (raise_error : bool) (s : BySelector) (w : World) :
  selectors w !! _Wait._selector self = Some s ->
  covert_to_millisecond timeout < _Wait._rpc_timeout_ms self ->
  let timeout_ms := covert_to_millisecond timeout in
  let call := Rpc "waitForExists" [wire_format s; PInt timeout_ms] in
  let run := _Wait.exists_ self timeout raise_error w in
  issues run w [call]
  /\ (respond (_Wait._ui self) (rpc_log w) call = Returns (PBool false) ->
        (_Wait._raise_error self = false -> raise_error = false ->
           run.1 = Returned (PBool false))
        /\ (_Wait._raise_error self = true \/ raise_error = true ->
              run.1 = Raised (Exn UiObjectSearchError
                                (not_found_message s timeout_ms)
                                (Some (_Wait._device self)) None)))
  /\ (respond (_Wait._ui self) (rpc_log w) call = Returns (PBool true) ->
        run.1 = Returned (PBool true)).
Proof.
  intros Hs Hlt timeout_ms call run. subst run call.
  unfold _Wait.exists_. fold timeout_ms.
  destruct (Z.leb_spec (_Wait._rpc_timeout_ms self) timeout_ms); [lia|].
  unfold issues, rpc. py_unfold. rewrite Hs.
  destruct (respond _ _ _) as [v|e] eqn:Hreply; cbn [fst snd].
  - split.
    { destruct (truthy v); [reflexivity|].
      destruct (_ || _); store_simpl; rewrite ?Hs; reflexivity. }
    split; intros Hv; simplify_eq; cbn [truthy].
    + split.
      * intros -> ->. reflexivity.
      * intros Hflag.
        assert (_Wait._raise_error self || raise_error = true) as ->
          by (destruct Hflag as [-> | ->]; [reflexivity|apply orb_true_r]).
        store_simpl. rewrite Hs. reflexivity.
    + reflexivity.
  - split; [reflexivity|]. split; intros; discriminate.
Qed.

(** The run of the [exists] property of a handle whose remote check comes
    back false while the flag of the handle is set. *)
Lemma handle_exists_raises (self : loc) (o : UiObject2) (s : BySelector)
    (v : pyval) (w : World) :
  handles w !! self = Some o ->
  _raise_error o = true ->
  selectors w !! _selector o = Some s ->
  respond (_ui o) (rpc_log w) (Rpc "exists" [wire_format s]) = Returns v ->
  truthy v = false ->
  UiObject2.exists_ self w
  = (Raised (Exn UiObjectSearchError
               ("Not found Selector" +:+ format_value (wire_format s))
               (Some (_device o)) None),
     with_rpc_log (fun log => log ++ [Rpc "exists" [wire_format s]]) w).
Proof.
  intros Ho Hflag Hs Hreply Hv. unfold UiObject2.exists_, rpc.
  py_unfold. rewrite Ho. store_simpl. rewrite Hs. store_simpl.
  rewrite Hreply. store_simpl. rewrite Ho, Hv, Hflag.
  cbn [negb andb]. store_simpl. rewrite Hs. reflexivity.
Qed.

(** C8.  [assert_exists] on a failing existence check, on a handle and on
    a wait builder: it raises [UiObjectSearchError] whose message is the
    message of the caller, and whose [__cause__] is the
    [UiObjectSearchError] of the failed check. *)
Theorem assert_exists_rewraps (self : loc) (o : UiObject2) (s : BySelector)
    (error_msg : string) (w : World) :
  handles w !! self = Some o ->
  selectors w !! _selector o = Some s ->
  (forall v,
     respond (_ui o) (rpc_log w) (Rpc "exists" [wire_format s]) = Returns v ->
     truthy v = false ->
     (UiObject2.assert_exists self error_msg w).1
     = Raised (Exn UiObjectSearchError error_msg (Some (_device o))
                 (Some (Exn UiObjectSearchError
                          ("Not found Selector"
                           +:+ format_value (wire_format s))
                          (Some (_device o)) None))))
  /\ (forall (b : _Wait.t) (timeout : TimeUnit) v,
        _Wait._selector b = _selector o ->
        covert_to_millisecond timeout < _Wait._rpc_timeout_ms b ->
        respond (_Wait._ui b) (rpc_log w)
          (Rpc "waitForExists"
             [wire_format s; PInt (covert_to_millisecond timeout)])
        = Returns v ->
        truthy v = false ->
        (_Wait.assert_exists b error_msg timeout w).1
        = Raised (Exn UiObjectSearchError error_msg
                    (Some (_Wait._device b))
                    (Some (Exn UiObjectSearchError
                             (not_found_message s
                                (covert_to_millisecond timeout))
                             (Some (_Wait._device b)) None)))).
Proof.
  intros Ho Hs. split.
  - intros v Hreply Hv.
    unfold UiObject2.assert_exists, UiObject2.setattr_raise_error,
      try_finally, try_except, write_handle.
    py_unfold. repeat (rewrite Ho; store_simpl).
    set (w1 := with_handles _ w).
    rewrite (handle_exists_raises self (set_raise_error true o) s v w1);
      [| apply lookup_insert_eq | reflexivity | exact Hs | exact Hreply
       | exact Hv ].
    cbn [exn_type]. rewrite decide_True by reflexivity.
    subst w1. store_simpl.
    repeat (rewrite lookup_insert_eq; store_simpl). reflexivity.
  - intros b timeout v Hsel Hlt Hreply Hv.
    unfold _Wait.assert_exists, try_except, _Wait.exists_.
    destruct (Z.leb_spec (_Wait._rpc_timeout_ms b)
                (covert_to_millisecond timeout)); [lia|].
    rewrite <- Hsel in Hs.
    unfold rpc, not_found_message. py_unfold.
    rewrite Hs. store_simpl. rewrite Hreply. store_simpl.
    rewrite Hv, orb_true_r. store_simpl. rewrite Hs. store_simpl.
    cbn [exn_type]. rewrite decide_True by reflexivity. reflexivity.
Qed.

Lemma exists_keeps_handles (self : loc) :
  keeps_handles (UiObject2.exists_ self).
Proof. unfold UiObject2.exists_. auto 20 with keeps. Qed.

(** C9.  [UiObject2.assert_exists] leaves the handle as it found it: after
    the call, whether it returned or raised and whatever the remote side
    did, the flag of the handle has the value it had before. *)
Theorem assert_exists_restores_flag (self : loc) (o : UiObject2)
    (error_msg : string) (w : World) :
  handles w !! self = Some o ->
  let run := UiObject2.assert_exists self error_msg w in
  handles run.2 = handles w
  /\ exists o', handles run.2 !! self = Some o'
                /\ _raise_error o' = _raise_error o.
Proof.
  intros Ho run.
  assert (handles run.2 = handles w) as Hsame.
  2:{ split; [exact Hsame|]. exists o. rewrite Hsame. auto. }
  subst run. unfold UiObject2.assert_exists.
  unfold bind at 1, read_handle at 1. rewrite Ho.
  rewrite try_finally_world.
  set (forced := with_handles <[self := set_raise_error true o]> w).
  assert (Hbody : handles
            (try_except
               (UiObject2.setattr_raise_error self true ;;;
                (UiObject2.exists_ self ;;; ret ()))
               UiObjectSearchError
               (fun e =>
                  o0 <- read_handle self ;;
                  raise (Exn UiObjectSearchError error_msg
                           (Some (_device o0)) (Some e))) w).2
          = handles forced).
  { unfold try_except, bind at 1.
    rewrite (setattr_run self true o w Ho). fold forced.
    assert (Hkeep : keeps_handles
              (try_except
                 (UiObject2.exists_ self ;;; ret ()) UiObjectSearchError
                 (fun e =>
                    o0 <- read_handle self ;;
                    raise (Exn UiObjectSearchError error_msg
                             (Some (_device o0)) (Some e))))).
    { apply try_except_keeps.
      - apply keeps_bind; [apply exists_keeps_handles|auto with keeps].
      - intros e. auto with keeps. }
    exact (Hkeep forced). }
  set (after := (try_except _ _ _ w).2) in *.
  rewrite (setattr_run self (_raise_error o) (set_raise_error true o) after)
    by (rewrite Hbody; apply lookup_insert_eq).
  store_simpl. rewrite Hbody. subst forced. store_simpl.
  rewrite insert_insert_eq. destruct o. apply insert_id. exact Ho.
Qed.
End waits.

(** ** Runs on the sample data *)

(** A click at a point on the first sample handle. *)
Lemma click_dispatch_witness :
  selectors (sample_world (constant_ui (PBool true)) false) !! 1%positive
  = Some sample_selector
  /\ delegates_to
       (@_Click.__call__ sample_externals
          (@_Click.__init__ sample_externals (constant_ui (PBool true))
             1%positive)
          (Some 300) None (Some 5) (Some 10)
          (sample_world (constant_ui (PBool true)) false))
       (constant_ui (PBool true))
       (sample_world (constant_ui (PBool true)) false)
       (Rpc "clickObjPoint"
          [sample_wire_format sample_selector; PInt 5; PInt 10; PInt 300]).
Proof.
  split; [reflexivity|].
  exact (@click_dispatch sample_externals
           (@_Click.__init__ sample_externals (constant_ui (PBool true))
              1%positive)
           (Some 300) None (Some 5) (Some 10) sample_selector
           (sample_world (constant_ui (PBool true)) false) eq_refl).
Defined.

(** A drag onto the object matching a text. *)
Lemma drag_dispatch_witness :
  selectors (sample_world (constant_ui (PBool true)) false) !! 1%positive
  = Some sample_selector
  /\ delegates_to
       (@_Drag.to sample_externals
          (_Drag.__init__ (constant_ui (PBool true)) 1%positive)
          None None (Some 800) [("text", PStr "Trash")]
          (sample_world (constant_ui (PBool true)) false))
       (constant_ui (PBool true))
       (sample_world (constant_ui (PBool true)) false)
       (Rpc "dragObjToObj"
          [sample_wire_format sample_selector;
           sample_wire_format (byselector.new [("text", PStr "Trash")]);
           PInt 800]).
Proof.
  split; [reflexivity|].
  apply (@drag_dispatch sample_externals
           (_Drag.__init__ (constant_ui (PBool true)) 1%positive)
           None None (Some 800) [("text", PStr "Trash")] sample_selector
           (sample_world (constant_ui (PBool true)) false) eq_refl);
    [reflexivity | reflexivity | discriminate].
Defined.

(** A fling upwards with the default percent, and a swipe of 150 percent. *)
Lemma gesture_dispatch_witness :
  selectors (sample_world (constant_ui (PBool true)) false) !! 1%positive
  = Some sample_selector
  /\ delegates_to
       (@_Gesture._To.__call__ sample_externals
          (_Gesture.up
             (_Gesture.__init__ (constant_ui (PBool true)) 1%positive "fling"))
          0 None (sample_world (constant_ui (PBool true)) false))
       (constant_ui (PBool true))
       (sample_world (constant_ui (PBool true)) false)
       (Rpc "fling"
          [sample_wire_format sample_selector; PStr "UP"; PNone; PNone; PNone])
  /\ raises_without_call
       (@_Gesture._To.__call__ sample_externals
          (_Gesture.down
             (_Gesture.__init__ (constant_ui (PBool true)) 1%positive "swipe"))
          150 None (sample_world (constant_ui (PBool true)) false))
       (sample_world (constant_ui (PBool true)) false)
       (Exn ApiError "swipe gesture requires percent to be between 0 and 100"
          (Some "emulator-5554") None).
Proof.
  split; [reflexivity|]. split.
  - apply (@gesture_dispatch sample_externals
             (_Gesture.up
                (_Gesture.__init__ (constant_ui (PBool true)) 1%positive
                   "fling"))
             0 None sample_selector
             (sample_world (constant_ui (PBool true)) false) eq_refl);
      reflexivity.
  - apply (@gesture_dispatch sample_externals
             (_Gesture.down
                (_Gesture.__init__ (constant_ui (PBool true)) 1%positive
                   "swipe"))
             150 None sample_selector
             (sample_world (constant_ui (PBool true)) false) eq_refl);
      [reflexivity | lia].
Defined.

(** A scroll down until the second sample handle is visible. *)
Lemma scroll_dispatch_witness :
  selectors (sample_world (constant_ui (PBool true)) false) !! 1%positive
  = Some sample_selector
  /\ observed (sample_world (constant_ui (PBool true)) false) 2%positive
     = Some sample_target_selector
  /\ delegates_to
       (@_Scroll._To.__call__ sample_externals
          (_Scroll.down (_Scroll.__init__ (constant_ui (PBool true)) 1%positive))
          PNone PNone (PHandle 2%positive) []
          (sample_world (constant_ui (PBool true)) false))
       (constant_ui (PBool true))
       (sample_world (constant_ui (PBool true)) false)
       (Rpc "scrollUntil"
          [sample_wire_format sample_selector;
           sample_wire_format sample_target_selector;
           PStr "DOWN"; PNone; PNone]).
Proof.
  split; [reflexivity|]. split; [reflexivity|].
  apply (@scroll_dispatch sample_externals
           (_Scroll.down (_Scroll.__init__ (constant_ui (PBool true)) 1%positive))
           None None (Some 2%positive) [] sample_selector
           sample_target_selector
           (sample_world (constant_ui (PBool true)) false) eq_refl).
  intros h [= <-]. reflexivity.
Defined.

(** A scroll down to a text followed by the click on it. *)
Lemma scroll_click_raw_criteria_witness :
  @_Scroll._To.click sample_externals
    (_Scroll.down (_Scroll.__init__ (constant_ui (PBool true)) 1%positive))
    [("text", PStr "Settings")]
    (sample_world (constant_ui (PBool true)) false)
  = rpc (constant_ui (PBool true)) "clickObj"
      [PDict [("text", PStr "Settings")]]
      (with_rpc_log
         (fun log =>
            log ++ [Rpc "scrollUntil"
                      [sample_wire_format sample_selector;
                       PDict [("text", PStr "Settings")];
                       PStr "DOWN"; PNone; PNone]])
         (sample_world (constant_ui (PBool true)) false)).
Proof.
  apply (@scroll_click_raw_criteria sample_externals
           (_Scroll.down (_Scroll.__init__ (constant_ui (PBool true)) 1%positive))
           [("text", PStr "Settings")] (PBool true)
           (sample_world (constant_ui (PBool true)) false));
    [discriminate | reflexivity | reflexivity].
Defined.


(** A wait of one second that the remote side answers with false, with the
    override of the call set. *)
Lemma wait_exists_outcome_witness :
  selectors (sample_world (constant_ui (PBool false)) false) !! 1%positive
  = Some sample_selector
  /\ (@_Wait.exists_ sample_externals
        (@_Wait.__init__ sample_externals (constant_ui (PBool false))
           1%positive false)
        1000 true (sample_world (constant_ui (PBool false)) false)).1
     = Raised (Exn UiObjectSearchError
                 ("Not found Selector<dict> over 1000 ms")
                 (Some "emulator-5554") None).
Proof.
  split; [reflexivity|].
  apply (@wait_exists_outcome sample_externals
           (@_Wait.__init__ sample_externals (constant_ui (PBool false))
              1%positive false)
           1000 true sample_selector
           (sample_world (constant_ui (PBool false)) false) eq_refl);
    [reflexivity | reflexivity | right; reflexivity].
Defined.

(** The assertion on a handle, and on its wait builder, while the remote
    side answers false. *)
Lemma assert_exists_rewraps_witness :
  (@UiObject2.assert_exists sample_externals 1%positive "no list on screen"
     (sample_world (constant_ui (PBool false)) false)).1
  = Raised (Exn UiObjectSearchError "no list on screen"
              (Some "emulator-5554")
              (Some (Exn UiObjectSearchError "Not found Selector<dict>"
                       (Some "emulator-5554") None)))
  /\ (@_Wait.assert_exists sample_externals
        (@_Wait.__init__ sample_externals (constant_ui (PBool false))
           1%positive false)
        "no list on screen" 1000
        (sample_world (constant_ui (PBool false)) false)).1
     = Raised (Exn UiObjectSearchError "no list on screen"
                 (Some "emulator-5554")
                 (Some (Exn UiObjectSearchError
                          "Not found Selector<dict> over 1000 ms"
                          (Some "emulator-5554") None))).
Proof.
  pose proof (@assert_exists_rewraps sample_externals 1%positive
                {| _ui := constant_ui (PBool false);
                   _device := "emulator-5554";
                   _selector := 1%positive;
                   _raise_error := false |}
                sample_selector "no list on screen"
                (sample_world (constant_ui (PBool false)) false)
                eq_refl eq_refl) as [Hhandle Hwait].
  split.
  - apply (Hhandle (PBool false)); reflexivity.
  - apply (Hwait (@_Wait.__init__ sample_externals
                    (constant_ui (PBool false)) 1%positive false)
             1000 (PBool false)); reflexivity.
Defined.

(** The assertion while the transport fails: the flag is back to false. *)
Lemma assert_exists_restores_flag_witness :
  (@UiObject2.assert_exists sample_externals 1%positive "no list on screen"
     (sample_world failing_ui false)).1
  = Raised (Exn RpcFailure "connection lost" None None)
  /\ exists o',
       handles
         (@UiObject2.assert_exists sample_externals 1%positive
            "no list on screen" (sample_world failing_ui false)).2
       !! 1%positive = Some o'
       /\ _raise_error o' = false.
Proof.
  split; [reflexivity|].
  apply (@assert_exists_restores_flag sample_externals 1%positive
           {| _ui := failing_ui; _device := "emulator-5554";
              _selector := 1%positive; _raise_error := false |}
           "no list on screen" (sample_world failing_ui false) eq_refl).
Defined.


(** * Further properties of the module *)

(** ** The rest of the wait builder *)

Lemma rpc_bind_returns {B} (ui : SnippetClientV2) (method : string)
    (args : list pyval) (v : pyval) (k : pyval -> Py B) (w : World) :
  respond ui (rpc_log w) (Rpc method args) = Returns v ->
  (x <- rpc ui method args ;; k x) w = k v (after_calls w [Rpc method args]).
Proof.
  intros Hreply. unfold bind. now rewrite (rpc_returns _ _ _ v) by exact Hreply.
Qed.

Lemma after_calls_app (w : World) (c1 c2 : list rpc_call) :
  after_calls (after_calls w c1) c2 = after_calls w (c1 ++ c2).
Proof.
  unfold after_calls, with_rpc_log. cbn. now rewrite <- app_assoc.
Qed.

Lemma rpc_run (ui : SnippetClientV2) (method : string) (args : list pyval)
    (w : World) :
  rpc ui method args w
  = (answer ui w (Rpc method args), after_calls w [Rpc method args]).
Proof.
  unfold rpc, answer. now destruct (respond ui (rpc_log w) (Rpc method args)).
Qed.

Section more_waits.
Context `{Externals}.

(** X1.  [_Wait.click]: at or above the ceiling it raises [ApiError] and
    makes no remote call.  Below it, it waits with [waitForExists]; when the
    answer is false the result is [False] after that one call, whatever the
    flag of the builder says (no [UiObjectSearchError] is raised); when the
    answer is true it goes on with the call [clickObj] on the selector alone
    and returns its answer. *)
Theorem wait_click_outcome (self : _Wait.t) (timeout : TimeUnit)
    (s : BySelector) (w : World) :
  selectors w !! _Wait._selector self = Some s ->
  let timeout_ms := covert_to_millisecond timeout in
  let wait_call := Rpc "waitForExists" [wire_format s; PInt timeout_ms] in
  let click_call := Rpc "clickObj" [wire_format s] in
  let run := _Wait.click self timeout w in
  (_Wait._rpc_timeout_ms self <= timeout_ms ->
     run = (Raised long_timeout_error, w))
  /\ (timeout_ms < _Wait._rpc_timeout_ms self ->
        forall v,
          respond (_Wait._ui self) (rpc_log w) wait_call = Returns v ->
          (truthy v = false ->
             run = (Returned (PBool false), after_calls w [wait_call]))
          /\ (truthy v = true ->
                run.1 = answer (_Wait._ui self) (after_calls w [wait_call])
                          click_call
                /\ run.2 = after_calls w [wait_call; click_call])).
Proof.
  intros Hs timeout_ms wait_call click_call run.
  subst run wait_call click_call. unfold _Wait.click. fold timeout_ms.
  split; intros Hcmp.
  - destruct (Z.leb_spec (_Wait._rpc_timeout_ms self) timeout_ms); [|lia].
    reflexivity.
  - destruct (Z.leb_spec (_Wait._rpc_timeout_ms self) timeout_ms); [lia|].
    intros v Hreply. rewrite to_dict_bind with (s := s) by exact Hs.
    rewrite (rpc_bind_returns _ _ _ v) by exact Hreply.
    split; intros Hv; rewrite Hv.
    + reflexivity.
    + rewrite to_dict_bind with (s := s) by exact Hs.
      rewrite rpc_run, after_calls_app. split; reflexivity.
Qed.

(** The run of [_Wait.gone] below the ceiling, on an answer of the remote
    side. *)
Lemma wait_gone_run (self : _Wait.t) (timeout : TimeUnit)
    (raise_error : bool) (s : BySelector) (v : pyval) (w : World) :
  selectors w !! _Wait._selector self = Some s ->
  covert_to_millisecond timeout < _Wait._rpc_timeout_ms self ->
  respond (_Wait._ui self) (rpc_log w)
    (Rpc "waitUntilGone" [wire_format s; PInt (covert_to_millisecond timeout)])
  = Returns v ->
  _Wait.gone self timeout raise_error w
  = (if truthy v then Returned (PBool true)
     else if _Wait._raise_error self || raise_error
          then Raised (Exn UiObjectSearchError
                         (still_found_message s (covert_to_millisecond timeout))
                         (Some (_Wait._device self)) None)
          else Returned (PBool false),
     after_calls w
       [Rpc "waitUntilGone"
          [wire_format s; PInt (covert_to_millisecond timeout)]]).
Proof.
  intros Hs Hlt Hreply. unfold _Wait.gone.
  destruct (Z.leb_spec (_Wait._rpc_timeout_ms self)
              (covert_to_millisecond timeout)); [lia|].
  rewrite to_dict_bind with (s := s) by exact Hs.
  rewrite (rpc_bind_returns _ _ _ v) by exact Hreply.
  destruct (truthy v); [reflexivity|].
  destruct (_Wait._raise_error self || raise_error); [|reflexivity].
  rewrite to_dict_bind with (s := s) by exact Hs. reflexivity.
Qed.

(** X2.  [_Wait.gone] with a timeout below the ceiling makes the one call
    [waitUntilGone].  On a true answer the result is [True]; on a false
    answer it is [False] when neither the flag of the builder nor the
    override is set, and [UiObjectSearchError] with the message that the
    selector was still found over the timeout when either is. *)
Theorem wait_gone_outcome (self : _Wait.t) (timeout : TimeUnit)
    (raise_error : bool) (s : BySelector) (w : World) :
  selectors w !! _Wait._selector self = Some s ->
  covert_to_millisecond timeout < _Wait._rpc_timeout_ms self ->
  let timeout_ms := covert_to_millisecond timeout in
  let call := Rpc "waitUntilGone" [wire_format s; PInt timeout_ms] in
  let run := _Wait.gone self timeout raise_error w in
  forall v,
    respond (_Wait._ui self) (rpc_log w) call = Returns v ->
    run.2 = after_calls w [call]
    /\ (truthy v = true -> run.1 = Returned (PBool true))
    /\ (truthy v = false ->
          run.1 = if _Wait._raise_error self || raise_error
                  then Raised (Exn UiObjectSearchError
                                 (still_found_message s timeout_ms)
                                 (Some (_Wait._device self)) None)
                  else Returned (PBool false)).
Proof.
  intros Hs Hlt timeout_ms call run v Hreply. subst run call timeout_ms.
  rewrite (wait_gone_run self timeout raise_error s v w Hs Hlt Hreply).
  repeat split; intros ->; reflexivity.
Qed.

(** X3.  [_Wait.assert_gone] on an object that is still there: it raises
    [UiObjectSearchError] with the message of the caller, and the error of
    [gone] as its [__cause__]. *)
Theorem assert_gone_rewraps (self : _Wait.t) (error_msg : string)
    (timeout : TimeUnit) (s : BySelector) (v : pyval) (w : World) :
  selectors w !! _Wait._selector self = Some s ->
  covert_to_millisecond timeout < _Wait._rpc_timeout_ms self ->
  respond (_Wait._ui self) (rpc_log w)
    (Rpc "waitUntilGone" [wire_format s; PInt (covert_to_millisecond timeout)])
  = Returns v ->
  truthy v = false ->
  (_Wait.assert_gone self error_msg timeout w).1
  = Raised (Exn UiObjectSearchError error_msg (Some (_Wait._device self))
              (Some (Exn UiObjectSearchError
                       (still_found_message s (covert_to_millisecond timeout))
                       (Some (_Wait._device self)) None))).
Proof.
  intros Hs Hlt Hreply Hv.
  unfold _Wait.assert_gone, try_except, bind.
  rewrite (wait_gone_run self timeout true s v w Hs Hlt Hreply).
  rewrite Hv, orb_true_r. cbn [exn_type].
  rewrite decide_True by reflexivity. reflexivity.
Qed.

(** X4.  The assertions of the wait builder do not rewrap the error of the
    timeout guard: at or above the ceiling [assert_exists] and
    [assert_gone] raise the [ApiError] of the guard itself, without a cause
    and without any remote call. *)
Theorem wait_assertions_keep_guard_error (self : _Wait.t)
    (error_msg : string) (timeout : TimeUnit) (w : World) :
  _Wait._rpc_timeout_ms self <= covert_to_millisecond timeout ->
  _Wait.assert_exists self error_msg timeout w
  = (Raised long_timeout_error, w)
  /\ _Wait.assert_gone self error_msg timeout w
     = (Raised long_timeout_error, w).
Proof.
  intros Hge.
  unfold _Wait.assert_exists, _Wait.assert_gone, try_except, bind,
    _Wait.exists_, _Wait.gone.
  destruct (Z.leb_spec (_Wait._rpc_timeout_ms self)
              (covert_to_millisecond timeout)); [|lia].
  unfold raise, long_timeout_error. cbn [exn_type].
  rewrite decide_False by discriminate. split; reflexivity.
Qed.

(** X5.  The assertions of the wait builder pass silently when the remote
    side confirms: [assert_exists] and [assert_gone] return [None] after the
    one wait call. *)
Theorem wait_assertions_pass (self : _Wait.t) (error_msg : string)
    (timeout : TimeUnit) (s : BySelector) (w : World) :
  selectors w !! _Wait._selector self = Some s ->
  covert_to_millisecond timeout < _Wait._rpc_timeout_ms self ->
  let timeout_ms := covert_to_millisecond timeout in
  (forall v,
     respond (_Wait._ui self) (rpc_log w)
       (Rpc "waitForExists" [wire_format s; PInt timeout_ms]) = Returns v ->
     truthy v = true ->
     _Wait.assert_exists self error_msg timeout w
     = (Returned (),
        after_calls w [Rpc "waitForExists" [wire_format s; PInt timeout_ms]]))
  /\ (forall v,
        respond (_Wait._ui self) (rpc_log w)
          (Rpc "waitUntilGone" [wire_format s; PInt timeout_ms]) = Returns v ->
        truthy v = true ->
        _Wait.assert_gone self error_msg timeout w
        = (Returned (),
           after_calls w
             [Rpc "waitUntilGone" [wire_format s; PInt timeout_ms]])).
Proof.
  intros Hs Hlt timeout_ms.
  split; intros v Hreply Hv;
    unfold _Wait.assert_exists, _Wait.assert_gone, try_except, bind at 1,
      _Wait.exists_, _Wait.gone; fold timeout_ms;
    (destruct (Z.leb_spec (_Wait._rpc_timeout_ms self) timeout_ms); [lia|]);
    rewrite to_dict_bind with (s := s) by exact Hs;
    rewrite (rpc_bind_returns _ _ _ v) by exact Hreply;
    rewrite Hv; reflexivity.
Qed.
End more_waits.

(** ** Scroll and click, configured builders *)

Section more_builders.
Context `{Externals}.

(** The run of a swipe with a percent in range. *)
Lemma gesture_dispatch_run (self : _Gesture._To.t) (p : Z) (speed : option Z)
    (s : BySelector) (w : World) :
  selectors w !! _Gesture._To._selector self = Some s ->
  _Gesture._To._action self = "swipe" ->
  0 <= p <= 100 ->
  delegates_to (_Gesture._To.__call__ self p speed w) (_Gesture._To._ui self) w
    (Rpc "swipeObj"
       [wire_format s; PStr (_Gesture._To._direction self); PInt p;
        of_optional speed; of_optional (_Gesture._To._margin self);
        of_optional (_Gesture._To._percent self)]).
Proof.
  intros Hs Haction Hp. unfold _Gesture._To.__call__. rewrite Haction.
  cbn [String.eqb Ascii.eqb Bool.eqb].
  assert ((0 <=? p) && (p <=? 100) = true) as ->
    by (apply andb_true_iff; lia).
  cbn [negb]. rewrite to_dict_bind with (s := s) by exact Hs.
  apply rpc_delegates. reflexivity.
Qed.

(** X6.  [click] of a scroll direction sub-builder without criteria raises
    [ApiError] and makes no remote call; with plain criteria that the
    scroll does not find (a false answer to [scrollUntil]) it returns
    [False] after that one call, and no click is made. *)
Theorem scroll_click_degrades (self : _Scroll._To.t) (kw : kwargs)
    (s : BySelector) (w : World) :
  selectors w !! _Scroll._To._selector self = Some s ->
  let scroll_call :=
    Rpc "scrollUntil"
      [wire_format s; PDict kw; PStr (_Scroll._To._direction self);
       of_optional (_Scroll._To._margin self);
       of_optional (_Scroll._To._percent self)] in
  (kw = [] ->
     _Scroll._To.click self kw w
     = (Raised (Exn ApiError "Target to scroll to is not defined"
                  (Some (_Scroll._To._device self)) None), w))
  /\ (kw <> [] ->
        kw_get "percent" kw = None ->
        kw_get "speed" kw = None ->
        kw_get "target" kw = None ->
        forall v,
          respond (_Scroll._To._ui self) (rpc_log w) scroll_call = Returns v ->
          truthy v = false ->
          _Scroll._To.click self kw w
          = (Returned (PBool false), after_calls w [scroll_call])).
Proof.
  intros Hs scroll_call. subst scroll_call. unfold _Scroll._To.click. split.
  - intros ->. reflexivity.
  - intros Hkw Hp Hv Ht v Hreply Hfalse.
    destruct kw as [|item kw]; [contradiction|]. cbn [nonempty negb].
    rewrite (call_splat_plain self _ Hp Hv Ht).
    unfold _Scroll._To.__call__. cbn [is_none nonempty negb andb].
    unfold bind at 1. rewrite to_dict_bind with (s := s) by exact Hs.
    rewrite (rpc_returns _ _ _ v) by exact Hreply. now rewrite Hfalse.
Qed.

(** X7.  A criterion named [speed] never reaches the remote side as a
    criterion: splatted into the call it binds the parameter [speed], and
    without a percentage the call is rejected.  So [click] with a [speed]
    criterion (not [None]) and no [percent] raises the [ApiError] of mixed
    shapes, without any remote call. *)
Theorem scroll_click_speed_criterion (self : _Scroll._To.t) (kw : kwargs)
    (v : pyval) (w : World) :
  kw_get "speed" kw = Some v ->
  v <> PNone ->
  kw_get "percent" kw = None ->
  _Scroll._To.click self kw w = (Raised (_Scroll._To.mixed_error self), w).
Proof.
  intros Hspeed Hv Hpercent. unfold _Scroll._To.click.
  destruct kw as [|item kw]; [discriminate|]. cbn [nonempty negb].
  unfold bind, _Scroll._To.call_splat, _Scroll._To.__call__.
  rewrite Hspeed, Hpercent. cbn [default is_none negb andb].
  destruct v; try contradiction; reflexivity.
Qed.

(** X8.  A gesture builder configured with margins: giving both a margin
    and a percentage raises [ApiError] without any remote call; otherwise
    every direction sub-builder of the configured builder sends the
    direction by its name and the two margins as the last arguments of the
    remote call, here for a swipe with a percent from 0 to 100. *)
Theorem gesture_configuration (g : _Gesture.t) (margin percent : option Z)
    (d : direction) (p : Z) (speed : option Z) (s : BySelector) (w : World) :
  selectors w !! _Gesture._selector g = Some s ->
  _Gesture._action g = "swipe" ->
  0 <= p <= 100 ->
  let run :=
    (g' <- _Gesture.__call__ g margin percent ;;
     _Gesture._To.__call__ (gesture_towards g' d) p speed) w in
  (margin <> None -> percent <> None ->
     run = (Raised (Exn ApiError
                      "Pixel-based and percentage-based margin cannot be mixed"
                      (Some (_Gesture._device g)) None), w))
  /\ (margin = None \/ percent = None ->
        delegates_to run (_Gesture._ui g) w
          (Rpc "swipeObj"
             [wire_format s; PStr (direction_name d); PInt p;
              of_optional speed; of_optional margin; of_optional percent])).
Proof.
  intros Hs Haction Hp run. subst run.
  unfold _Gesture.__call__, bind. split.
  - intros Hm Hq. destruct margin, percent; try contradiction. reflexivity.
  - intros Hone.
    assert (given margin && given percent = false) as ->
      by (destruct Hone as [-> | ->]; [reflexivity|apply andb_false_r]).
    unfold ret.
    set (g' := {| _Gesture._ui := _; _Gesture._device := _;
                  _Gesture._selector := _; _Gesture._action := _;
                  _Gesture._margin := margin; _Gesture._percent := percent |}).
    pose proof (gesture_dispatch_run (gesture_towards g' d) p speed s w) as Hrun.
    destruct d; apply Hrun; auto.
Qed.
(** X9.  A scroll builder configured with margins: giving both a margin and
    a percentage raises [ApiError] without any remote call; otherwise a
    scroll by percentage through any direction sub-builder sends the
    direction by its name, the percentage as given (no range is enforced on
    it, whatever its sign or size), the speed and the two margins. *)
Theorem scroll_configuration (b : _Scroll.t) (margin percent : option Z)
    (d : direction) (p : Z) (speed : option Z) (s : BySelector) (w : World) :
  selectors w !! _Scroll._selector b = Some s ->
  let run :=
    (b' <- _Scroll.__call__ b margin percent ;;
     _Scroll._To.__call__ (scroll_towards b' d) (PInt p) (of_optional speed)
       PNone []) w in
  (margin <> None -> percent <> None ->
     run = (Raised (Exn ApiError
                      "Pixel-based and percentage-based margin cannot be mixed"
                      (Some (_Scroll._device b)) None), w))
  /\ (margin = None \/ percent = None ->
        delegates_to run (_Scroll._ui b) w
          (Rpc "scroll"
             [wire_format s; PStr (direction_name d); PInt p;
              of_optional speed; of_optional margin; of_optional percent])).
Proof.
  intros Hs run. subst run. unfold _Scroll.__call__, bind. split.
  - intros Hm Hq. destruct margin, percent; try contradiction. reflexivity.
  - intros Hone.
    assert (given margin && given percent = false) as ->
      by (destruct Hone as [-> | ->]; [reflexivity|apply andb_false_r]).
    unfold ret, _Scroll._To.__call__. cbn [is_none nonempty negb andb].
    destruct d; cbn [scroll_towards _Scroll.down _Scroll.left _Scroll.right
                       _Scroll.up _Scroll.towards _Scroll._To.__init__
                       _Scroll._To._selector _Scroll._To._ui
                       _Scroll._To._direction _Scroll._To._margin
                       _Scroll._To._percent _Scroll._selector _Scroll._ui
                       _Scroll._margin _Scroll._percent direction_name];
      rewrite to_dict_bind with (s := s) by exact Hs;
      apply rpc_delegates; reflexivity.
Qed.

(** X10.  The deprecated [timeout] of [_Click.__call__]: the call emits the
    deprecation warning exactly when [timeout] is given, before it looks at
    [x] and [y] (so also when it then raises), and emits nothing else. *)
Theorem click_deprecation_warning (self : _Click.t)
    (duration timeout : option TimeUnit) (x y : option Z) (w : World) :
  warnings_log (_Click.__call__ self duration timeout x y w).2
  = warnings_log w
    ++ (if given timeout
        then ["The 'timeout' argument is deprecated, use 'duration' instead."]
        else []).
Proof.
  unfold _Click.__call__.
  destruct timeout as [t|], x as [a|], y as [c|];
    cbn [given andb negb]; py_unfold;
    try (symmetry; apply app_nil_r);
    try reflexivity;
    (destruct (selectors w !! _Click._selector self);
     [|cbn; try reflexivity; symmetry; apply app_nil_r]);
    unfold rpc; store_simpl;
    match goal with
    | |- context [respond ?ui ?log ?c] => destruct (respond ui log c)
    end; cbn; try reflexivity; symmetry; apply app_nil_r.
Qed.
End more_builders.

(** ** Handles: existence, navigation paths, builders and queries *)




Lemma restore_forced_flag (self : loc) (o : UiObject2) (w : World)
    (calls : list rpc_call) :
  handles w !! self = Some o ->
  with_handles <[self := set_raise_error (_raise_error o)
                           (set_raise_error true o)]>
    (after_calls (with_handles <[self := set_raise_error true o]> w) calls)
  = after_calls w calls.
Proof.
  intros Ho. destruct w as [hs ss log ws]. cbn in Ho.
  unfold after_calls, with_handles, with_rpc_log. cbn. f_equal.
  rewrite insert_insert_eq. destruct o. now apply insert_id.
Qed.



Section more_handles.
Context `{Externals}.

(** The run of the [exists] property of a handle. *)
Lemma handle_exists_run (self : loc) (o : UiObject2) (s : BySelector)
    (w : World) :
  handles w !! self = Some o ->
  selectors w !! _selector o = Some s ->
  UiObject2.exists_ self w
  = (match respond (_ui o) (rpc_log w) (Rpc "exists" [wire_format s]) with
     | Returns v =>
         if negb (truthy v) && _raise_error o
         then Raised (Exn UiObjectSearchError
                        ("Not found Selector" +:+ format_value (wire_format s))
                        (Some (_device o)) None)
         else Returned v
     | Throws e => Raised e
     end,
     after_calls w [Rpc "exists" [wire_format s]]).
Proof.
  intros Ho Hs. unfold UiObject2.exists_.
  unfold bind at 1, read_handle at 1. rewrite Ho.
  rewrite to_dict_bind with (s := s) by exact Hs.
  unfold bind at 1. rewrite rpc_run. unfold answer.
  destruct (respond _ _ _) as [v|e]; [|reflexivity].
  unfold bind at 1, read_handle. cbn [handles after_calls with_rpc_log].
  rewrite Ho.
  destruct (negb (truthy v) && _raise_error o); [|reflexivity].
  rewrite to_dict_bind with (s := s) by exact Hs. reflexivity.
Qed.

(** X13.  The [exists] property of a handle makes the one call [exists].
    It returns the answer of the remote side as it is, unless the answer is
    false and the flag of the handle is set: then it raises
    [UiObjectSearchError] naming the serialized selector.  An error of the
    transport is passed on whatever the flag says. *)
Theorem handle_exists_outcome (self : loc) (o : UiObject2) (s : BySelector)
    (w : World) :
  handles w !! self = Some o ->
  selectors w !! _selector o = Some s ->
  let call := Rpc "exists" [wire_format s] in
  let run := UiObject2.exists_ self w in
  run.2 = after_calls w [call]
  /\ (forall v,
        respond (_ui o) (rpc_log w) call = Returns v ->
        run.1 = if negb (truthy v) && _raise_error o
                then Raised (Exn UiObjectSearchError
                               ("Not found Selector"
                                +:+ format_value (wire_format s))
                               (Some (_device o)) None)
                else Returned v)
  /\ (forall e,
        respond (_ui o) (rpc_log w) call = Throws e -> run.1 = Raised e).
Proof.
  intros Ho Hs call run. subst run call.
  rewrite (handle_exists_run self o s w Ho Hs).
  repeat split; intros ? Hreply; cbn [fst]; now rewrite Hreply.
Qed.

(** X14.  [UiObject2.assert_exists] on an object that exists returns [None]
    and leaves the world as it was apart from the one call [exists]: in
    particular the handle has its own flag again. *)
Theorem handle_assert_exists_passes (self : loc) (o : UiObject2)
    (s : BySelector) (error_msg : string) (v : pyval) (w : World) :
  handles w !! self = Some o ->
  selectors w !! _selector o = Some s ->
  respond (_ui o) (rpc_log w) (Rpc "exists" [wire_format s]) = Returns v ->
  truthy v = true ->
  UiObject2.assert_exists self error_msg w
  = (Returned (), after_calls w [Rpc "exists" [wire_format s]]).
Proof.
  intros Ho Hs Hreply Hv. unfold UiObject2.assert_exists.
  unfold bind at 1, read_handle at 1. rewrite Ho.
  unfold try_finally, try_except, bind at 1.
  rewrite (setattr_run self true o w Ho).
  set (forced := with_handles <[self := set_raise_error true o]> w).
  assert (Hforced : handles forced !! self = Some (set_raise_error true o))
    by apply lookup_insert_eq.
  unfold bind at 1.
  rewrite (handle_exists_run self (set_raise_error true o) s forced
             Hforced Hs).
  assert (Hreply' : respond (_ui (set_raise_error true o)) (rpc_log forced)
                      (Rpc "exists" [wire_format s]) = Returns v)
    by exact Hreply.
  rewrite Hreply', Hv. cbn [negb andb]. unfold ret.
  rewrite (setattr_run self (_raise_error o) (set_raise_error true o))
    by exact Hforced.
  subst forced. now rewrite restore_forced_flag.
Qed.

(** X15.  The flag of a handle is the flag of its wait builder: a wait made
    through the [wait] property of a handle whose flag is set raises
    [UiObjectSearchError] on a false answer even without the override of
    the call, and returns [False] when the flag is not set. *)
Theorem handle_wait_inherits_flag (self : loc) (o : UiObject2)
    (s : BySelector) (timeout : TimeUnit) (v : pyval) (w : World) :
  handles w !! self = Some o ->
  selectors w !! _selector o = Some s ->
  covert_to_millisecond timeout
  < covert_to_millisecond DEFAULT_SNIPPET_RPC_TIMEOUT ->
  respond (_ui o) (rpc_log w)
    (Rpc "waitForExists" [wire_format s; PInt (covert_to_millisecond timeout)])
  = Returns v ->
  truthy v = false ->
  ((b <- UiObject2.wait self ;; _Wait.exists_ b timeout false) w).1
  = if _raise_error o
    then Raised (Exn UiObjectSearchError
                   (not_found_message s (covert_to_millisecond timeout))
                   (Some (ui_device (_ui o))) None)
    else Returned (PBool false).
Proof.
  intros Ho Hs Hlt Hreply Hv. unfold UiObject2.wait.
  unfold bind at 1, bind at 1, read_handle. rewrite Ho. unfold ret.
  unfold _Wait.exists_, _Wait.__init__.
  cbn [_Wait._rpc_timeout_ms _Wait._selector _Wait._ui _Wait._raise_error
       _Wait._device].
  destruct (Z.leb_spec (covert_to_millisecond DEFAULT_SNIPPET_RPC_TIMEOUT)
              (covert_to_millisecond timeout)); [lia|].
  rewrite to_dict_bind with (s := s) by exact Hs.
  rewrite (rpc_bind_returns _ _ _ v) by exact Hreply. rewrite Hv.
  rewrite orb_false_r. destruct (_raise_error o); [|reflexivity].
  rewrite to_dict_bind with (s := s) by exact Hs. reflexivity.
Qed.
(** X16.  The assertions only rewrap object-search errors: when the
    transport fails during the check with an error of another class,
    [assert_exists] of a handle, and [assert_exists] and [assert_gone] of a
    wait builder, raise that error itself, after the one call; the handle
    has its own flag again. *)
Theorem assertions_pass_transport_errors (self : loc) (o : UiObject2)
    (s : BySelector) (error_msg : string) (e : exn) (w : World) :
  handles w !! self = Some o ->
  selectors w !! _selector o = Some s ->
  exn_type e <> UiObjectSearchError ->
  (respond (_ui o) (rpc_log w) (Rpc "exists" [wire_format s]) = Throws e ->
   UiObject2.assert_exists self error_msg w
   = (Raised e, after_calls w [Rpc "exists" [wire_format s]]))
  /\ (forall (b : _Wait.t) (timeout : TimeUnit),
        _Wait._selector b = _selector o ->
        covert_to_millisecond timeout < _Wait._rpc_timeout_ms b ->
        let timeout_ms := covert_to_millisecond timeout in
        (respond (_Wait._ui b) (rpc_log w)
           (Rpc "waitForExists" [wire_format s; PInt timeout_ms]) = Throws e ->
         _Wait.assert_exists b error_msg timeout w
         = (Raised e,
            after_calls w
              [Rpc "waitForExists" [wire_format s; PInt timeout_ms]]))
        /\ (respond (_Wait._ui b) (rpc_log w)
              (Rpc "waitUntilGone" [wire_format s; PInt timeout_ms])
            = Throws e ->
            _Wait.assert_gone b error_msg timeout w
            = (Raised e,
               after_calls w
                 [Rpc "waitUntilGone" [wire_format s; PInt timeout_ms]]))).
Proof.
  intros Ho Hs Hclass. split.
  - intros Hreply. unfold UiObject2.assert_exists.
    unfold bind at 1, read_handle at 1. rewrite Ho.
    unfold try_finally, try_except, bind at 1.
    rewrite (setattr_run self true o w Ho).
    set (forced := with_handles <[self := set_raise_error true o]> w).
    assert (Hforced : handles forced !! self = Some (set_raise_error true o))
      by apply lookup_insert_eq.
    unfold bind at 1.
    rewrite (handle_exists_run self (set_raise_error true o) s forced
               Hforced Hs).
    assert (Hreply' : respond (_ui (set_raise_error true o)) (rpc_log forced)
                        (Rpc "exists" [wire_format s]) = Throws e)
      by exact Hreply.
    rewrite Hreply'. rewrite decide_False by exact Hclass.
    rewrite (setattr_run self (_raise_error o) (set_raise_error true o))
      by exact Hforced.
    subst forced. now rewrite restore_forced_flag.
  - intros b timeout Hsel Hlt timeout_ms. rewrite <- Hsel in Hs.
    split; intros Hreply;
      unfold _Wait.assert_exists, _Wait.assert_gone, try_except, bind at 1,
        _Wait.exists_, _Wait.gone; fold timeout_ms;
      (destruct (Z.leb_spec (_Wait._rpc_timeout_ms b) timeout_ms); [lia|]);
      rewrite to_dict_bind with (s := s) by exact Hs;
      unfold bind at 1; rewrite rpc_run; unfold answer; rewrite Hreply;
      rewrite decide_False by exact Hclass; reflexivity.
Qed.
End more_handles.

Section more_actions.
Context `{Externals}.



(** X18.  The queries and simple actions of a handle ([text], [checked],
    [clear_text], [set_text] and the like): each makes one remote call,
    with the serialized selector as first argument, returns the answer of
    the remote side (or passes its error on), and leaves the handles and
    selectors of the world untouched. *)
Theorem queries_are_read_only (self : loc) (q : query) (o : UiObject2)
    (s : BySelector) (w : World) :
  handles w !! self = Some o ->
  selectors w !! _selector o = Some s ->
  let call := Rpc (query_method q) (wire_format s :: query_arguments q) in
  run_query self q w = (answer (_ui o) w call, after_calls w [call]).
Proof.
  intros Ho Hs call. subst call.
  destruct q; cbn [run_query query_method query_arguments];
    unfold UiObject2.clear_text, UiObject2.long_click, UiObject2.set_text,
      UiObject2.children, UiObject2.info, UiObject2.display_id,
      UiObject2.class_name, UiObject2.description, UiObject2.hint,
      UiObject2.package_name, UiObject2.resource_id, UiObject2.text,
      UiObject2.checkable, UiObject2.checked, UiObject2.clickable,
      UiObject2.enabled, UiObject2.focusable, UiObject2.focused,
      UiObject2.long_clickable, UiObject2.scrollable, UiObject2.selected;
    unfold bind at 1, read_handle; rewrite Ho;
    rewrite to_dict_bind with (s := s) by exact Hs;
    apply rpc_run.
Qed.

(** X19.  [find] and [has] search below the handle without extending it:
    each makes one remote call with the serialized selector of the handle
    and the criteria serialized as a selector of their own, and the chain
    seen through the handle is what it was. *)
Theorem find_and_has_search_below (self : loc) (kw : kwargs) (o : UiObject2)
    (s : BySelector) (w : World) :
  handles w !! self = Some o ->
  selectors w !! _selector o = Some s ->
  let criteria := wire_format (byselector.new kw) in
  let find_call := Rpc "findChildObjects" [wire_format s; criteria] in
  let has_call := Rpc "hasChildObject" [wire_format s; criteria] in
  UiObject2.find self kw w
  = (answer (_ui o) w find_call, after_calls w [find_call])
  /\ UiObject2.has self kw w
     = (answer (_ui o) w has_call, after_calls w [has_call])
  /\ observed (UiObject2.find self kw w).2 self = Some s
  /\ observed (UiObject2.has self kw w).2 self = Some s.
Proof.
  intros Ho Hs criteria find_call has_call.
  assert (Hfind : UiObject2.find self kw w
                  = (answer (_ui o) w find_call, after_calls w [find_call])).
  { unfold UiObject2.find. unfold bind at 1, read_handle. rewrite Ho.
    rewrite to_dict_bind with (s := s) by exact Hs. apply rpc_run. }
  assert (Hhas : UiObject2.has self kw w
                 = (answer (_ui o) w has_call, after_calls w [has_call])).
  { unfold UiObject2.has. unfold bind at 1, read_handle. rewrite Ho.
    rewrite to_dict_bind with (s := s) by exact Hs. apply rpc_run. }
  rewrite Hfind, Hhas. repeat split;
    unfold observed; cbn [snd handles selectors after_calls with_rpc_log];
    rewrite Ho; exact Hs.
Qed.

(** X20.  A pinch through the [pinch] property of a handle: [close] and
    [open] make the one call [pinchClose] or [pinchOpen] with the selector
    of the handle, the percentage and the speed; no argument is checked, so
    no percentage makes them raise before the call. *)
Theorem pinch_through_handle (self : loc) (percent : Z) (speed : option Z)
    (o : UiObject2) (s : BySelector) (w : World) :
  handles w !! self = Some o ->
  selectors w !! _selector o = Some s ->
  let close_call :=
    Rpc "pinchClose" [wire_format s; PInt percent; of_optional speed] in
  let open_call :=
    Rpc "pinchOpen" [wire_format s; PInt percent; of_optional speed] in
  (b <- UiObject2.pinch self ;; _Pinch.close b percent speed) w
  = (answer (_ui o) w close_call, after_calls w [close_call])
  /\ (b <- UiObject2.pinch self ;; _Pinch.open b percent speed) w
     = (answer (_ui o) w open_call, after_calls w [open_call]).
Proof.
  intros Ho Hs close_call open_call.
  split; unfold UiObject2.pinch;
    unfold bind at 1, bind at 1, read_handle; rewrite Ho; unfold ret;
    unfold _Pinch.close, _Pinch.open, _Pinch.__init__;
    cbn [_Pinch._selector _Pinch._ui];
    rewrite to_dict_bind with (s := s) by exact Hs; apply rpc_run.
Qed.

(** X21.  A fling through the [fling] property of a handle, in any
    direction: with percent 0 it makes the one call [fling] with the name of
    the direction and no margins; with any other percent it raises
    [ApiError] for the device of the client, without any remote call.  The
    error of an unknown action is never met on this path. *)
Theorem fling_through_handle (self : loc) (d : direction) (percent : Z)
    (speed : option Z) (o : UiObject2) (s : BySelector) (w : World) :
  handles w !! self = Some o ->
  selectors w !! _selector o = Some s ->
  let run :=
    (g <- UiObject2.fling self ;;
     _Gesture._To.__call__ (gesture_towards g d) percent speed) w in
  (percent = 0 ->
     run = rpc (_ui o) "fling"
             [wire_format s; PStr (direction_name d); of_optional speed;
              PNone; PNone] w)
  /\ (percent <> 0 ->
        run = (Raised (Exn ApiError
                         "fling gesture does not support changing the percent"
                         (Some (ui_device (_ui o))) None), w)).
Proof.
  intros Ho Hs run. subst run.
  split; intros Hp;
    unfold UiObject2.fling;
    unfold bind at 1, bind at 1, read_handle; rewrite Ho; unfold ret;
    unfold _Gesture._To.__call__;
    destruct d; cbn [gesture_towards _Gesture.down _Gesture.left
                       _Gesture.right _Gesture.up _Gesture.towards
                       _Gesture.__init__ _Gesture._To.__init__
                       _Gesture._To._action _Gesture._To._selector
                       _Gesture._To._ui _Gesture._To._direction
                       _Gesture._To._margin _Gesture._To._percent
                       _Gesture._To._device _Gesture._action _Gesture._ui
                       _Gesture._selector _Gesture._margin _Gesture._percent
                       String.eqb Ascii.eqb Bool.eqb direction_name
                       of_optional];
    destruct (Z.eqb_spec percent 0); try contradiction; cbn [negb];
    try reflexivity;
    now rewrite to_dict_bind with (s := s) by exact Hs.
Qed.
End more_actions.


(** ** Runs of the further properties on the sample data *)

Lemma wait_click_outcome_witness :
  (@_Wait.click sample_externals (sample_wait (constant_ui (PBool true)) true)
     1000 world_yes).2
  = after_calls world_yes
      [Rpc "waitForExists" [sample_wire_format sample_selector; PInt 1000];
       Rpc "clickObj" [sample_wire_format sample_selector]].
Proof.
  destruct (@wait_click_outcome sample_externals
              (sample_wait (constant_ui (PBool true)) true) 1000
              sample_selector world_yes eq_refl) as [_ Hbelow].
  destruct (Hbelow ltac:(cbn; lia) (PBool true) eq_refl) as [_ Hclick].
  apply (Hclick eq_refl).
Defined.

Lemma wait_gone_outcome_witness :
  (@_Wait.gone sample_externals (sample_wait (constant_ui (PBool false)) true)
     1000 false world_no).1
  = Raised (Exn UiObjectSearchError "Still found Selector<dict> over 1000 ms"
              (Some "emulator-5554") None).
Proof.
  destruct (@wait_gone_outcome sample_externals
              (sample_wait (constant_ui (PBool false)) true) 1000 false
              sample_selector world_no eq_refl ltac:(cbn; lia) (PBool false)
              eq_refl) as (_ & _ & Hstill).
  apply (Hstill eq_refl).
Defined.

Lemma assert_gone_rewraps_witness :
  (@_Wait.assert_gone sample_externals
     (sample_wait (constant_ui (PBool false)) false) "still there" 1000
     world_no).1
  = Raised (Exn UiObjectSearchError "still there" (Some "emulator-5554")
              (Some (Exn UiObjectSearchError
                       "Still found Selector<dict> over 1000 ms"
                       (Some "emulator-5554") None))).
Proof.
  apply (@assert_gone_rewraps sample_externals
           (sample_wait (constant_ui (PBool false)) false) "still there" 1000
           sample_selector (PBool false) world_no eq_refl);
    [cbn; lia | reflexivity | reflexivity].
Defined.

Lemma wait_assertions_keep_guard_error_witness :
  @_Wait.assert_exists sample_externals
    (sample_wait (constant_ui (PBool false)) false) "missing" 60000 world_no
  = (Raised (Exn ApiError "timeout is longer than the RPC timeout" None None),
     world_no).
Proof.
  apply (@wait_assertions_keep_guard_error sample_externals
           (sample_wait (constant_ui (PBool false)) false) "missing" 60000
           world_no ltac:(cbn; lia)).
Defined.

Lemma wait_assertions_pass_witness :
  @_Wait.assert_gone sample_externals
    (sample_wait (constant_ui (PBool true)) false) "still there" 1000 world_yes
  = (Returned (),
     after_calls world_yes
       [Rpc "waitUntilGone" [sample_wire_format sample_selector; PInt 1000]]).
Proof.
  destruct (@wait_assertions_pass sample_externals
              (sample_wait (constant_ui (PBool true)) false) "still there"
              1000 sample_selector world_yes eq_refl ltac:(cbn; lia))
    as [_ Hgone].
  apply (Hgone (PBool true)); reflexivity.
Defined.

Lemma scroll_click_degrades_witness :
  @_Scroll._To.click sample_externals
    (_Scroll.down (_Scroll.__init__ (constant_ui (PBool false)) 1%positive))
    [("text", PStr "Settings")] world_no
  = (Returned (PBool false),
     after_calls world_no
       [Rpc "scrollUntil"
          [sample_wire_format sample_selector;
           PDict [("text", PStr "Settings")]; PStr "DOWN"; PNone; PNone]]).
Proof.
  destruct (@scroll_click_degrades sample_externals
              (_Scroll.down
                 (_Scroll.__init__ (constant_ui (PBool false)) 1%positive))
              [("text", PStr "Settings")] sample_selector world_no eq_refl)
    as [_ Hplain].
  apply (Hplain ltac:(discriminate) eq_refl eq_refl eq_refl (PBool false));
    reflexivity.
Defined.

Lemma scroll_click_speed_criterion_witness :
  @_Scroll._To.click sample_externals
    (_Scroll.down (_Scroll.__init__ (constant_ui (PBool true)) 1%positive))
    [("text", PStr "Settings"); ("speed", PInt 3)] world_yes
  = (Raised (Exn ApiError
               "Scroll by percentage and scroll by condition cannot be mixed"
               (Some "emulator-5554") None),
     world_yes).
Proof.
  apply (@scroll_click_speed_criterion sample_externals
           (_Scroll.down
              (_Scroll.__init__ (constant_ui (PBool true)) 1%positive))
           [("text", PStr "Settings"); ("speed", PInt 3)] (PInt 3) world_yes);
    [reflexivity | discriminate | reflexivity].
Defined.

Lemma gesture_configuration_witness :
  delegates_to
    ((g' <- _Gesture.__call__
              (_Gesture.__init__ (constant_ui (PBool true)) 1%positive "swipe")
              (Some 20) None ;;
      @_Gesture._To.__call__ sample_externals (gesture_towards g' Leftwards)
        50 (Some 900)) world_yes)
    (constant_ui (PBool true)) world_yes
    (Rpc "swipeObj"
       [sample_wire_format sample_selector; PStr "LEFT"; PInt 50; PInt 900;
        PInt 20; PNone]).
Proof.
  destruct (@gesture_configuration sample_externals
              (_Gesture.__init__ (constant_ui (PBool true)) 1%positive "swipe")
              (Some 20) None Leftwards 50 (Some 900) sample_selector world_yes
              eq_refl eq_refl ltac:(lia)) as [_ Hsend].
  apply Hsend. right. reflexivity.
Defined.

Lemma scroll_configuration_witness :
  delegates_to
    ((b' <- _Scroll.__call__
              (_Scroll.__init__ (constant_ui (PBool true)) 1%positive)
              None (Some 10) ;;
      @_Scroll._To.__call__ sample_externals (scroll_towards b' Up)
        (PInt 250) PNone PNone []) world_yes)
    (constant_ui (PBool true)) world_yes
    (Rpc "scroll"
       [sample_wire_format sample_selector; PStr "UP"; PInt 250; PNone;
        PNone; PInt 10]).
Proof.
  destruct (@scroll_configuration sample_externals
              (_Scroll.__init__ (constant_ui (PBool true)) 1%positive)
              None (Some 10) Up 250 None sample_selector world_yes eq_refl)
    as [_ Hsend].
  apply Hsend. left. reflexivity.
Defined.

Lemma handle_exists_outcome_witness :
  (@UiObject2.exists_ sample_externals 1%positive world_no_strict).1
  = Raised (Exn UiObjectSearchError "Not found Selector<dict>"
              (Some "emulator-5554") None).
Proof.
  destruct (@handle_exists_outcome sample_externals 1%positive
              (sample_handle (constant_ui (PBool false)) true) sample_selector
              world_no_strict eq_refl eq_refl) as (_ & Hanswer & _).
  apply (Hanswer (PBool false) eq_refl).
Defined.

Lemma handle_assert_exists_passes_witness :
  @UiObject2.assert_exists sample_externals 1%positive "missing" world_yes
  = (Returned (),
     after_calls world_yes
       [Rpc "exists" [sample_wire_format sample_selector]]).
Proof.
  apply (@handle_assert_exists_passes sample_externals 1%positive
           (sample_handle (constant_ui (PBool true)) false) sample_selector
           "missing" (PBool true) world_yes);
    reflexivity.
Defined.



Lemma handle_wait_inherits_flag_witness :
  ((b <- @UiObject2.wait sample_externals 1%positive ;;
    @_Wait.exists_ sample_externals b 1000 false) world_no_strict).1
  = Raised (Exn UiObjectSearchError "Not found Selector<dict> over 1000 ms"
              (Some "emulator-5554") None).
Proof.
  apply (@handle_wait_inherits_flag sample_externals 1%positive
           (sample_handle (constant_ui (PBool false)) true) sample_selector
           1000 (PBool false) world_no_strict eq_refl eq_refl);
    [cbn; lia | reflexivity | reflexivity].
Defined.


Lemma queries_are_read_only_witness :
  @run_query sample_externals 1%positive (SetText "hello") world_yes
  = (Returned (PBool true),
     after_calls world_yes
       [Rpc "setText" [sample_wire_format sample_selector; PStr "hello"]]).
Proof.
  apply (@queries_are_read_only sample_externals 1%positive (SetText "hello")
           (sample_handle (constant_ui (PBool true)) false) sample_selector
           world_yes eq_refl eq_refl).
Defined.

Lemma find_and_has_search_below_witness :
  @UiObject2.has sample_externals 1%positive [("text", PStr "OK")] world_yes
  = (Returned (PBool true),
     after_calls world_yes
       [Rpc "hasChildObject"
          [sample_wire_format sample_selector;
           sample_wire_format (byselector.new [("text", PStr "OK")])]]).
Proof.
  destruct (@find_and_has_search_below sample_externals 1%positive
              [("text", PStr "OK")]
              (sample_handle (constant_ui (PBool true)) false) sample_selector
              world_yes eq_refl eq_refl) as (_ & Hhas & _).
  exact Hhas.
Defined.

Lemma pinch_through_handle_witness :
  ((b <- UiObject2.pinch 1%positive ;;
    @_Pinch.close sample_externals b 250 None) world_yes)
  = (Returned (PBool true),
     after_calls world_yes
       [Rpc "pinchClose" [sample_wire_format sample_selector; PInt 250; PNone]]).
Proof.
  destruct (@pinch_through_handle sample_externals 1%positive 250 None
              (sample_handle (constant_ui (PBool true)) false) sample_selector
              world_yes eq_refl eq_refl) as [Hclose _].
  exact Hclose.
Defined.

Lemma fling_through_handle_witness :
  ((g <- UiObject2.fling 1%positive ;;
    @_Gesture._To.__call__ sample_externals (gesture_towards g Up) 10 None)
     world_yes)
  = (Raised (Exn ApiError
               "fling gesture does not support changing the percent"
               (Some "emulator-5554") None),
     world_yes).
Proof.
  destruct (@fling_through_handle sample_externals 1%positive Up 10 None
              (sample_handle (constant_ui (PBool true)) false) sample_selector
              world_yes eq_refl eq_refl) as [_ Hreject].
  apply Hreject. discriminate.
Defined.

Lemma assertions_pass_transport_errors_witness :
  @UiObject2.assert_exists sample_externals 1%positive "missing"
    (sample_world failing_ui false)
  = (Raised (Exn RpcFailure "connection lost" None None),
     after_calls (sample_world failing_ui false)
       [Rpc "exists" [sample_wire_format sample_selector]]).
Proof.
  destruct (@assertions_pass_transport_errors sample_externals 1%positive
              (sample_handle failing_ui false) sample_selector "missing"
              (Exn RpcFailure "connection lost" None None)
              (sample_world failing_ui false) eq_refl eq_refl
              ltac:(discriminate)) as [Hhandle _].
  apply Hhandle. reflexivity.
Defined.
